(** * OKCoin REST client (src/okcoin.js): a shallow embedding

    The client builds a parameter object per endpoint, signs it for the
    private endpoints (sorted [key=value] pairs joined by [&], the secret
    appended, MD5, upper case), hands it to the HTTP library, and classifies
    the response for the caller's callback.

    Conventions of the embedding.
    - JavaScript values are the inductive [value].  Numbers are the integers
      whose decimal text JavaScript prints in full (no fraction, no
      exponent); strings are sequences of 8-bit code units, so that the
      code-unit order used by [Array.prototype.sort] is the byte-wise order.
    - An object is its list of own enumerable properties in insertion
      order.  Assignment keeps the position of an existing key.
    - A conversion that throws [TypeError] returns [None]; the functions of
      the client that perform conversions live in the [option] monad.
    - The collaborators that are not part of the repository ([md5],
      [JSON.parse], [JSON.stringify]) are section variables. *)

From Stdlib Require Import String Ascii List ZArith Bool Lia.
From Stdlib Require Import DecimalString Permutation Sorted Orders Mergesort.
Import ListNotations.
Local Open Scope list_scope.
Local Open Scope string_scope.

(** ** The option monad of throwing conversions *)

Definition bind {A B : Type} (m : option A) (k : A -> option B) : option B :=
  match m with
  | Some a => k a
  | None => None
  end.

Notation "x <- m ;; k" := (bind m (fun x => k))
  (at level 61, m at next level, right associativity).

Fixpoint sequence {A : Type} (l : list (option A)) : option (list A) :=
  match l with
  | [] => Some []
  | m :: r => x <- m ;; xs <- sequence r ;; Some (x :: xs)
  end.

(** ** JavaScript values *)

#[warnings="-register-all"]
Inductive value : Type :=
| JUndefined
| JNull
| JBool (b : bool)
| JNum (n : Z)
| JStr (s : string)
| JArr (items : list value)
| JObj (props : list (string * value))
| JError (message : string)      (* [new Error(message)] *)
| JNative (name : string).       (* a built-in function, e.g. [Object.prototype.toString] *)

Definition obj : Type := list (string * value).

(** [if (v)]: the falsy values are [undefined], [null], [false], [0] and
    the empty string. *)
Definition truthy (v : value) : bool :=
  match v with
  | JUndefined | JNull => false
  | JBool b => b
  | JNum n => negb (n =? 0)%Z
  | JStr s => negb (s =? "")
  | JArr _ | JObj _ | JError _ | JNative _ => true
  end.

(** The text of an integer number, as JavaScript prints it below
    [10^21]; larger numbers are outside the embedding. *)
Definition decimal (n : Z) : string := NilZero.string_of_int (Z.to_int n).

(** *** Own properties *)

Fixpoint get_own (o : obj) (k : string) : option value :=
  match o with
  | [] => None
  | (k', v) :: r => if k' =? k then Some v else get_own r k
  end.

Definition has_own (o : obj) (k : string) : bool :=
  match get_own o k with
  | Some _ => true
  | None => false
  end.

(** [o[k] = v] *)
Fixpoint obj_set (o : obj) (k : string) (v : value) : obj :=
  match o with
  | [] => [(k, v)]
  | (k', v') :: r => if k' =? k then (k', v) :: r else (k', v') :: obj_set r k v
  end.

(** The keys that [for (i in obj)] enumerates: the own enumerable
    properties, in insertion order ([Object.prototype] has no enumerable
    property to add). *)
Definition own_keys (o : obj) : list string := map fst o.

(** What every plain object inherits from [Object.prototype]. *)
Definition Object_prototype (k : string) : option value :=
  if k =? "__proto__" then Some (JObj [])
  else if existsb (String.eqb k)
       ["constructor"; "hasOwnProperty"; "isPrototypeOf"; "propertyIsEnumerable";
        "toLocaleString"; "toString"; "valueOf"; "__defineGetter__";
        "__defineSetter__"; "__lookupGetter__"; "__lookupSetter__"]
  then Some (JNative k)
  else None.

(** [o[k]] on a plain object: own property, then the prototype, then
    [undefined]. *)
Definition prop (o : obj) (k : string) : value :=
  match get_own o k with
  | Some v => v
  | None =>
      match Object_prototype k with
      | Some v => v
      | None => JUndefined
      end
  end.

(** *** Conversion to string

    [ToString] is the conversion behind [+] with a string operand, behind
    [Array.prototype.join] and behind the computed property access
    [o[v]].  A plain object prints through the inherited [toString]; an own
    property of that name that holds data is not callable, and the
    conversion throws.  A function stored under an own [toString] or
    [valueOf] is not followed: the embedding answers [None] there as well,
    and the statements below are relative to this conversion. *)
Fixpoint ToString (v : value) : option string :=
  match v with
  | JUndefined => Some "undefined"
  | JNull => Some "null"
  | JBool true => Some "true"
  | JBool false => Some "false"
  | JNum n => Some (decimal n)
  | JStr s => Some s
  | JArr items =>
      option_map (String.concat ",")
        (sequence
           (map (fun x => match x with
                          | JUndefined | JNull => Some ""
                          | _ => ToString x
                          end) items))
  | JObj props => if has_own props "toString" then None else Some "[object Object]"
  | JError message => Some (if message =? "" then "Error" else "Error: " ++ message)
  | JNative name => Some ("function " ++ name ++ "() { [native code] }")
  end.

(** [items.join(sep)] *)
Definition join_element (x : value) : option string :=
  match x with
  | JUndefined | JNull => Some ""
  | _ => ToString x
  end.

Definition array_join (sep : string) (items : list value) : option string :=
  option_map (String.concat sep) (sequence (map join_element items)).

(** [s.toUpperCase()] on 8-bit code units: the letters a-z move to A-Z. *)
Definition upper_ascii (c : ascii) : ascii :=
  let n := nat_of_ascii c in
  if (97 <=? n)%nat && (n <=? 122)%nat then ascii_of_nat (n - 32) else c.

Fixpoint toUpperCase (s : string) : string :=
  match s with
  | EmptyString => EmptyString
  | String c r => String (upper_ascii c) (toUpperCase r)
  end.

(** *** [arr.sort()]

    The default comparison orders strings by code units.  The keys of one
    object are pairwise distinct, so every correct sorting algorithm
    returns the same array; merge sort stands for the engine's. *)
Module KeyOrder <: TotalLeBool.
Definition t := string.
Definition leb (a b : string) : bool := (a <=? b)%string.
Lemma leb_total (a b : string) : leb a b = true \/ leb b a = true.
Proof. apply String.leb_total. Qed.
End KeyOrder.

Module KeySort := Sort KeyOrder.

Definition sort (arr : list string) : list string := KeySort.sort arr.

(** ** The error catalogue (okcoin.js, lines 189-225) *)

Definition error_codes : obj :=
  [ ("10000", JStr "Required parameter can not be null");
    ("10001", JStr "Requests are too frequent");
    ("10002", JStr "System Error");
    ("10003", JStr "Restricted list request, please try again later");
    ("10004", JStr "IP restriction");
    ("10005", JStr "Key does not exist");
    ("10006", JStr "User does not exist");
    ("10007", JStr "Signatures do not match");
    ("10008", JStr "Illegal parameter");
    ("10009", JStr "Order does not exist");
    ("10010", JStr "Insufficient balance");
    ("10011", JStr "Order is less than minimum trade amount");
    ("10012", JStr "Unsupported symbol (not btc_cny or ltc_cny)");
    ("10013", JStr "This interface only accepts https requests");
    ("10014", JStr "Order price must be between 0 and 1,000,000");
    ("10015", JStr "Order price differs from current market price too much");
    ("10016", JStr "Insufficient coins balance");
    ("10017", JStr "API authorization error");
    ("10026", JStr "Loan (including reserved loan) and margin cannot be withdrawn");
    ("10027", JStr "Cannot withdraw within 24 hrs of authentication information modification");
    ("10028", JStr "Withdrawal amount exceeds daily limit");
    ("10029", JStr "Account has unpaid loan, please cancel/pay off the loan before withdraw");
    ("10031", JStr "Deposits can only be withdrawn after 6 confirmations");
    ("10032", JStr "Please enabled phone/google authenticator");
    ("10033", JStr "Fee higher than maximum network transaction fee");
    ("10034", JStr "Fee lower than minimum network transaction fee");
    ("10035", JStr "Insufficient BTC/LTC");
    ("10036", JStr "Withdrawal amount too low");
    ("10037", JStr "Trade password not set");
    ("10040", JStr "Withdrawal cancellation fails");
    ("10041", JStr "Withdrawal address not approved");
    ("10042", JStr "Admin password error");
    ("10100", JStr "User account frozen");
    ("10216", JStr "Non-available API");
    ("503", JStr "Too many requests (Http)") ].

(** [error_code_meaning] (lines 231-235).  [msg] is computed and dropped;
    the returned object looks the code up a second time. *)
Definition error_code_meaning (error_code : value) : option value :=
  key <- ToString error_code ;;
  msg <- (if truthy (prop error_codes key)
          then Some (prop error_codes key)
          else text <- ToString error_code ;;
               Some (JStr (("OKCoin error code :" ++ text)
                             ++ " is not yet supported by the API"))) ;;
  Some (JObj [("code", error_code); ("error", prop error_codes key)]).

(** ** Construction (lines 12-20)

    [_.defaults(object, source)] assigns a key of [source] where [object]
    resolves it to [undefined]: where the key is not an own property, or is
    one whose value is [undefined]. *)
Definition defaults (object source : obj) : obj :=
  fold_left
    (fun o kv =>
       match get_own o (fst kv) with
       | None | Some JUndefined => obj_set o (fst kv) (snd kv)
       | Some _ => o
       end)
    source object.

(** The own properties of [settings || {}].  A truthy value that is not a
    plain object (an array, a string, ...) has none of the four keys. *)
Definition settings_object (settings : value) : obj :=
  match (if truthy settings then settings else JObj []) with
  | JObj o => o
  | _ => []
  end.

Definition OKCoin (api_key secret settings : value) : obj :=
  defaults (settings_object settings)
    [ ("url", JStr "https://www.okcoin.cn/api");
      ("version", JStr "v1");
      ("api_key", api_key);
      ("secret", secret) ].

(** ** Canonical string (lines 128-146) *)

(** Calling a built-in of [Object.prototype] other than [toLocaleString]
    as a method of the plain object [o], with a first argument whose
    property key is [key].  Only the truthiness of the result matters to
    the caller; [None] is a [TypeError] ([__defineGetter__] and
    [__defineSetter__] without a function, or a name that is no built-in). *)
Definition call_simple (name : string) (o : obj) (key : string) : option bool :=
  if existsb (String.eqb name) ["hasOwnProperty"; "propertyIsEnumerable"]
  then Some (has_own o key)
  else if existsb (String.eqb name) ["toString"; "valueOf"; "constructor"]
  then Some true
  else if existsb (String.eqb name) ["isPrototypeOf"; "__lookupGetter__"; "__lookupSetter__"]
  then Some false
  else None.

(** [toLocaleString] calls [this.toString()], without arguments. *)
Definition call_builtin (name : string) (o : obj) (key : string) : option bool :=
  if name =? "toLocaleString" then
    match prop o "toString" with
    | JNative method => call_simple method o "undefined"
    | _ => None
    end
  else call_simple name o key.

(** [obj.hasOwnProperty(i)]: the method is the own property of that name
    when the object has one, the inherited built-in otherwise; a value
    that is not a function cannot be called. *)
Definition hasOwnProperty_call (o : obj) (i : string) : option bool :=
  match prop o "hasOwnProperty" with
  | JNative name => call_builtin name o i
  | _ => None
  end.

(** The first loop: [for (i in obj) if (obj.hasOwnProperty(i)) arr.push(i)]. *)
Fixpoint collect_keys (o : obj) (keys : list string) : option (list string) :=
  match keys with
  | [] => Some []
  | i :: rest =>
      own <- hasOwnProperty_call o i ;;
      arr <- collect_keys o rest ;;
      Some (if own then i :: arr else arr)
  end.

(** The second loop, from index [i] with the text built so far. *)
Fixpoint format_pairs (o : obj) (arr : list string) (i : nat)
  (formattedObject : string) : option string :=
  match arr with
  | [] => Some formattedObject
  | key :: rest =>
      let formattedObject :=
        if (i =? 0)%nat then formattedObject else formattedObject ++ "&" in
      text <- ToString (prop o key) ;;
      format_pairs o rest (S i) (formattedObject ++ (key ++ "=") ++ text)
  end.

Definition stringifyToOKCoinFormat (o : obj) : option string :=
  arr <- collect_keys o (own_keys o) ;;
  format_pairs o (sort arr) 0 "".

(** ** Requests and completions *)

Record request : Type := { url : string; method : string; form : value }.

(** The callback argument of an endpoint: a function of the caller, or any
    other value.  In [on_response] the caller's function returns normally;
    [on_response_calling] below runs the same handler with a function that
    may throw. *)
Inductive callback : Type :=
| UserFunction
| Other (v : value).

(** [typeof callback === 'function'] *)
Definition is_function (cb : callback) : bool :=
  match cb with
  | UserFunction => true
  | Other (JNative _) => true
  | Other _ => false
  end.

(** What running the response handler does: the invocations of the
    callback, in order, each with its [(error, data)] arguments, and whether
    the handler ended by an uncaught exception. *)
Record completion : Type := { calls : list (value * value); raised : bool }.

Definition deliver (error data : value) : completion :=
  {| calls := [(error, data)]; raised := false |}.
Definition silent : completion := {| calls := []; raised := false |}.
Definition thrown : completion := {| calls := []; raised := true |}.

(** [data.error_code]: a [TypeError] on [null] and [undefined]; primitives
    and arrays have no such property. *)
Definition get_error_code (data : value) : option value :=
  match data with
  | JUndefined | JNull => None
  | JObj o => Some (prop o "error_code")
  | _ => Some JUndefined
  end.

Section Client.

(** [md5(text)]: the lower-case hexadecimal digest. *)
Variable md5 : string -> string.
(** [JSON.parse(body)]; [None] when it throws. *)
Variable JSON_parse : string -> option value.
(** The text [JSON.stringify(error)] contributes to a concatenation; the
    values of the embedding are finite trees, on which it does not throw. *)
Variable JSON_stringify : value -> string.

(** Lines 178-182, on the parsed payload. *)
Definition classify (data : value) : completion :=
  match get_error_code data with
  | None => thrown
  | Some error_code =>
      if truthy error_code then
        match error_code_meaning error_code with
        | Some e => deliver e JNull
        | None => thrown
        end
      else deliver JNull data
  end.

(** The function passed to [request] (lines 164-184). *)
Definition on_response (cb : callback) (error : value) (body : string) : completion :=
  if is_function cb then
    if truthy error then
      deliver (JError ("Error in server response: " ++ JSON_stringify error)) JNull
    else
      match JSON_parse body with
      | None =>
          deliver (JError ("Could not understand response from server: " ++ body)) JNull
      | Some data => classify data
      end
  else silent.

(** A call in flight: the options handed to [request] and the handler
    registered with it. *)
Record pending : Type :=
  { options : request; handler : value -> string -> completion }.

(** Lines 156-187. *)
Definition okcoinRequest (url : string) (requestType : string) (params : value)
  (cb : callback) : pending :=
  {| options := {| url := url; method := requestType; form := params |};
     handler := on_response cb |}.

(** Lines 118-121. *)
Definition getMessageSignature (config params : obj) : option string :=
  canonical <- stringifyToOKCoinFormat params ;;
  secret <- ToString (prop config "secret") ;;
  Some (toUpperCase (md5 ((canonical ++ "&secret_key=") ++ secret))).

(** Lines 93-97. *)
Definition publicMethod (config : obj) (path : string) (cb : callback) : option pending :=
  base <- ToString (prop config "url") ;;
  Some (okcoinRequest (base ++ path) "GET" JNull cb).

(** Lines 106-111. *)
Definition privateMethod (config : obj) (path : string) (params : obj) (cb : callback)
  : option pending :=
  base <- ToString (prop config "url") ;;
  let params := obj_set params "api_key" (prop config "api_key") in
  sign <- getMessageSignature config params ;;
  let params := obj_set params "sign" (JStr sign) in
  Some (okcoinRequest (base ++ path) "POST" (JObj params) cb).

(** ['/' + config.version + suffix] *)
Definition versioned (config : obj) (suffix : string) : option string :=
  version <- ToString (prop config "version") ;;
  Some (("/" ++ version) ++ suffix).

(** *** Public endpoints (lines 25-38) *)

Definition ticker (config : obj) (cb : callback) : option pending :=
  path <- versioned config "/ticker.do" ;; publicMethod config path cb.

Definition depth (config : obj) (cb : callback) : option pending :=
  path <- versioned config "/depth.do" ;; publicMethod config path cb.

Definition trades (config : obj) (cb : callback) : option pending :=
  path <- versioned config "/trades.do" ;; publicMethod config path cb.

(** *** Private endpoints (lines 44-85): the parameter object of each, then
    the endpoint. *)

Definition userinfo_params : obj := [].

Definition userinfo (config : obj) (cb : callback) : option pending :=
  path <- versioned config "/userinfo.do" ;;
  privateMethod config path userinfo_params cb.

Definition trade_params (symbol type price amount : value) : obj :=
  let params := [] in
  let params := if truthy amount then obj_set params "amount" amount else params in
  let params := if truthy price then obj_set params "price" price else params in
  let params := obj_set params "symbol" symbol in
  obj_set params "type" type.

Definition trade (config : obj) (symbol type price amount : value) (cb : callback)
  : option pending :=
  path <- versioned config "/trade.do" ;;
  privateMethod config path (trade_params symbol type price amount) cb.

Definition order_params (order_id symbol : value) : obj :=
  [("order_id", order_id); ("symbol", symbol)].

Definition cancel_order (config : obj) (order_id symbol : value) (cb : callback)
  : option pending :=
  path <- versioned config "/cancel_order.do" ;;
  privateMethod config path (order_params order_id symbol) cb.

Definition order_info (config : obj) (order_id symbol : value) (cb : callback)
  : option pending :=
  path <- versioned config "/order_info.do" ;;
  privateMethod config path (order_params order_id symbol) cb.

(** [if (Array.isArray(orders_id)) orders_id = orders_id.join(",")] *)
Definition flatten_ids (orders_id : value) : option value :=
  match orders_id with
  | JArr items => text <- array_join "," items ;; Some (JStr text)
  | _ => Some orders_id
  end.

Definition orders_info (config : obj) (orders_id symbol : value) (cb : callback)
  : option pending :=
  orders_id <- flatten_ids orders_id ;;
  path <- versioned config "/orders_info.do" ;;
  privateMethod config path (order_params orders_id symbol) cb.

Definition order_history_params (symbol status page pagesize : value) : obj :=
  [ ("current_page", page); ("symbol", symbol); ("status", status);
    ("page_length", pagesize) ].

Definition order_history (config : obj) (symbol status page pagesize : value)
  (cb : callback) : option pending :=
  path <- versioned config "/order_history.do" ;;
  privateMethod config path (order_history_params symbol status page pagesize) cb.

End Client.

(** The private endpoints as data, to quantify over every signed request. *)
Inductive private_call : Type :=
| Userinfo
| Trade (symbol type price amount : value)
| CancelOrder (order_id symbol : value)
| OrderInfo (order_id symbol : value)
| OrdersInfo (orders_id symbol : value)
| OrderHistory (symbol status page pagesize : value).

Definition invoke (md5 : string -> string) (JSON_parse : string -> option value)
  (JSON_stringify : value -> string) (config : obj) (call : private_call)
  (cb : callback) : option pending :=
  match call with
  | Userinfo => userinfo md5 JSON_parse JSON_stringify config cb
  | Trade symbol type price amount =>
      trade md5 JSON_parse JSON_stringify config symbol type price amount cb
  | CancelOrder order_id symbol =>
      cancel_order md5 JSON_parse JSON_stringify config order_id symbol cb
  | OrderInfo order_id symbol =>
      order_info md5 JSON_parse JSON_stringify config order_id symbol cb
  | OrdersInfo orders_id symbol =>
      orders_info md5 JSON_parse JSON_stringify config orders_id symbol cb
  | OrderHistory symbol status page pagesize =>
      order_history md5 JSON_parse JSON_stringify config symbol status page pagesize cb
  end.

(** The parameter object an endpoint hands to [privateMethod]. *)
Definition call_params (call : private_call) : option obj :=
  match call with
  | Userinfo => Some userinfo_params
  | Trade symbol type price amount => Some (trade_params symbol type price amount)
  | CancelOrder order_id symbol => Some (order_params order_id symbol)
  | OrderInfo order_id symbol => Some (order_params order_id symbol)
  | OrdersInfo orders_id symbol =>
      orders_id <- flatten_ids orders_id ;; Some (order_params orders_id symbol)
  | OrderHistory symbol status page pagesize =>
      Some (order_history_params symbol status page pagesize)
  end.

(** ** The order on keys *)

Definition key_le (a b : string) : Prop := KeyOrder.leb a b = true.

(** ** Specification-side notions *)

(** One [key=value] pair of the canonical string. *)
Definition pair_text (o : obj) (key : string) : option string :=
  text <- ToString (prop o key) ;; Some (key ++ "=" ++ text).

(** The pairs of the given keys joined by [&]. *)
Definition joined_pairs (o : obj) (keys : list string) : option string :=
  option_map (String.concat "&") (sequence (map (pair_text o) keys)).

(** The object obtained from [o] by assigning the entries in order. *)
Definition assign_all (o : obj) (entries : list (string * value)) : obj :=
  fold_left (fun acc kv => obj_set acc (fst kv) (snd kv)) entries o.

(** The texts of a list, one after the other. *)
Definition flat (l : list string) : string := fold_right String.append "" l.

(** A value whose conversion to string does not throw. *)
Definition printable (v : value) : bool :=
  match ToString v with
  | Some _ => true
  | None => false
  end.

(** An object all of whose values convert to strings. *)
Definition values_printable (o : obj) : bool :=
  forallb (fun kv => printable (snd kv)) o.

(** The values the data model allows in a parameter set. *)
Definition scalar (v : value) : bool :=
  match v with
  | JUndefined | JNull | JBool _ | JNum _ | JStr _ => true
  | _ => false
  end.

(** The path suffix and the arguments of a private call. *)
Definition call_suffix (call : private_call) : string :=
  match call with
  | Userinfo => "/userinfo.do"
  | Trade _ _ _ _ => "/trade.do"
  | CancelOrder _ _ => "/cancel_order.do"
  | OrderInfo _ _ => "/order_info.do"
  | OrdersInfo _ _ => "/orders_info.do"
  | OrderHistory _ _ _ _ => "/order_history.do"
  end.

Definition call_args (call : private_call) : list value :=
  match call with
  | Userinfo => []
  | Trade symbol type price amount => [symbol; type; price; amount]
  | CancelOrder order_id symbol => [order_id; symbol]
  | OrderInfo order_id symbol => [order_id; symbol]
  | OrdersInfo orders_id symbol => [orders_id; symbol]
  | OrderHistory symbol status page pagesize => [symbol; status; page; pagesize]
  end.

(** An order identifier: a string or a number; its text; and the single
    comma-separated string of a sequence of identifiers. *)
Definition identifier (v : value) : bool :=
  match v with
  | JStr _ | JNum _ => true
  | _ => false
  end.

Definition identifier_text (v : value) : string :=
  match v with
  | JStr s => s
  | JNum n => decimal n
  | _ => ""
  end.

Definition comma_joined (ids : list value) : string :=
  String.concat "," (map identifier_text ids).


(** ** Sample collaborators and inputs

    Closed examples need a digest, a parser and a printer.  The theorems
    hold for all of them; the samples below only let examples compute. *)

Definition sample_digest (text : string) : string := text.

Definition quoted (s : string) : string :=
  String "034"%char (s ++ String "034"%char "").

Definition body_unknown_code : string := "{" ++ quoted "error_code" ++ ":99999}".
Definition body_known_code : string := "{" ++ quoted "error_code" ++ ":10007}".
Definition body_result : string := "{" ++ quoted "result" ++ ":true}".

(** The parser restricted to the sample bodies. *)
Definition sample_parse (body : string) : option value :=
  if body =? body_unknown_code then Some (JObj [("error_code", JNum 99999)])
  else if body =? body_known_code then Some (JObj [("error_code", JNum 10007)])
  else if body =? body_result then Some (JObj [("result", JBool true)])
  else if body =? "null" then Some JNull
  else None.

(** [JSON.stringify] of an [Error] without enumerable properties. *)
Definition sample_stringify (v : value) : string := "{}".

Definition sample_config : obj :=
  OKCoin (JStr "key") (JStr "secret") JUndefined.

(** ** Notions for the further properties *)

(** The second argument of [_.defaults] in the constructor. *)
Definition builtin_defaults (api_key secret : value) : obj :=
  [ ("url", JStr "https://www.okcoin.cn/api");
    ("version", JStr "v1");
    ("api_key", api_key);
    ("secret", secret) ].

(** The value the client ends up with for a key: the setting when the
    settings hold it with a value that is not [undefined], the built-in
    default or positional argument otherwise. *)
Definition configured (api_key secret settings : value) (k : string) : value :=
  match get_own (settings_object settings) k with
  | Some JUndefined | None => prop (builtin_defaults api_key secret) k
  | Some v => v
  end.

(** [delete o[k]] *)
Definition obj_remove (o : obj) (k : string) : obj :=
  filter (fun kv => negb (fst kv =? k)) o.

(** One [key=value] field of a signed text, and the field of an optional
    argument. *)
Definition field (key : string) (v : value) : option string :=
  text <- ToString v ;; Some (key ++ "=" ++ text).

Definition optional_field (key : string) (v : value) : list (option string) :=
  if truthy v then [field key v] else [].

(** The fields of the text signed for a private call, in the order in which
    they are signed. *)
Definition signed_fields (api_key : value) (call : private_call) : list (option string) :=
  match call with
  | Userinfo => [field "api_key" api_key]
  | Trade symbol type price amount =>
      (optional_field "amount" amount ++ [field "api_key" api_key]
       ++ optional_field "price" price
       ++ [field "symbol" symbol; field "type" type])%list
  | CancelOrder order_id symbol | OrderInfo order_id symbol
  | OrdersInfo order_id symbol =>
      [field "api_key" api_key; field "order_id" order_id; field "symbol" symbol]
  | OrderHistory symbol status page pagesize =>
      [field "api_key" api_key; field "current_page" page;
       field "page_length" pagesize; field "status" status; field "symbol" symbol]
  end.

Definition signed_text (api_key : value) (call : private_call) : option string :=
  option_map (String.concat "&") (sequence (signed_fields api_key call)).

(** The four keys of the configuration that the endpoints read. *)
Definition config_keys : list string := ["url"; "version"; "api_key"; "secret"].

(** The parameter object a pending request carries. *)
Definition sent_form (p : option pending) : option value :=
  option_map (fun q => form (options q)) p.

(** The response handler of lines 164-184 once more, run with a callback
    that may itself throw: [throws error data] tells whether the caller's
    function ends by an exception when it is called with these arguments.
    No call of the callback is inside a [try], so its exception leaves the
    handler. *)
Definition call_back (throws : value -> value -> bool) (error data : value)
  : completion :=
  {| calls := [(error, data)]; raised := throws error data |}.

Definition classify_calling (throws : value -> value -> bool) (data : value)
  : completion :=
  match get_error_code data with
  | None => thrown
  | Some error_code =>
      if truthy error_code then
        match error_code_meaning error_code with
        | Some e => call_back throws e JNull
        | None => thrown
        end
      else call_back throws JNull data
  end.

Definition on_response_calling (JSON_parse : string -> option value)
  (JSON_stringify : value -> string) (throws : value -> value -> bool)
  (cb : callback) (error : value) (body : string) : completion :=
  if is_function cb then
    if truthy error then
      call_back throws
        (JError ("Error in server response: " ++ JSON_stringify error)) JNull
    else
      match JSON_parse body with
      | None =>
          call_back throws
            (JError ("Could not understand response from server: " ++ body)) JNull
      | Some data => classify_calling throws data
      end
  else silent.

(** Whether the code unit [c] occurs in [s]. *)
Fixpoint contains (c : ascii) (s : string) : bool :=
  match s with
  | EmptyString => false
  | String x r => (x =? c)%char || contains c r
  end.

(** A parameter set without delimiters: no key holds [&] or [=], and no
    value prints with [&]. *)
Definition delimiter_free (o : obj) : Prop :=
  forall k, In k (own_keys o) ->
    contains "&" k = false /\ contains "=" k = false /\
    forall text, ToString (prop o k) = Some text -> contains "&" text = false.

(** Hexadecimal digits, with the letters in lower and in upper case. *)
Definition lower_hex (c : ascii) : bool :=
  let n := nat_of_ascii c in
  ((48 <=? n)%nat && (n <=? 57)%nat) || ((97 <=? n)%nat && (n <=? 102)%nat).

Definition upper_hex (c : ascii) : bool :=
  let n := nat_of_ascii c in
  ((48 <=? n)%nat && (n <=? 57)%nat) || ((65 <=? n)%nat && (n <=? 70)%nat).

Fixpoint every (p : ascii -> bool) (s : string) : bool :=
  match s with
  | EmptyString => true
  | String c r => p c && every p r
  end.

(** A digest function with the shape of MD5 output, for closed examples. *)
Definition sample_hex_digest (text : string) : string :=
  "d41d8cd98f00b204e9800998ecf8427e".

(** The number of code units in the texts of a list. *)
Definition total_length (l : list string) : nat :=
  fold_right (fun x n => (String.length x + n)%nat) 0%nat l.

(** * Facts *)

(** ** Strings *)

Lemma append_nil_r (s : string) : s ++ "" = s.
Proof. induction s as [|c s IH]; simpl; [reflexivity | now rewrite IH]. Qed.

Lemma append_assoc (a b c : string) : (a ++ b) ++ c = a ++ b ++ c.
Proof. induction a as [|x a IH]; simpl; [reflexivity | now rewrite IH]. Qed.

Lemma ascii_compare_refl (a : ascii) : Ascii.compare a a = Eq.
Proof. unfold Ascii.compare. apply N.compare_refl. Qed.

Lemma ascii_compare_lt_trans (a b c : ascii) :
  Ascii.compare a b = Lt -> Ascii.compare b c = Lt -> Ascii.compare a c = Lt.
Proof. unfold Ascii.compare. rewrite !N.compare_lt_iff. lia. Qed.

Lemma string_compare_refl (s : string) : String.compare s s = Eq.
Proof.
  induction s as [|c s IH]; simpl; [reflexivity|].
  now rewrite ascii_compare_refl.
Qed.

Lemma string_compare_lt_trans (a b c : string) :
  String.compare a b = Lt -> String.compare b c = Lt -> String.compare a c = Lt.
Proof.
  revert b c. induction a as [|x a IH]; intros [|y b] [|z c]; simpl;
    try discriminate; try reflexivity.
  destruct (Ascii.compare x y) eqn:Exy; try discriminate;
    destruct (Ascii.compare y z) eqn:Eyz; try discriminate; intros Hab Hbc.
  - apply Ascii.compare_eq_iff in Exy, Eyz. subst.
    rewrite ascii_compare_refl. eauto.
  - apply Ascii.compare_eq_iff in Exy. subst. now rewrite Eyz.
  - apply Ascii.compare_eq_iff in Eyz. subst. now rewrite Exy.
  - now rewrite (ascii_compare_lt_trans _ _ _ Exy Eyz).
Qed.

Lemma key_le_cases (a b : string) : key_le a b <-> String.compare a b = Lt \/ a = b.
Proof.
  unfold key_le, KeyOrder.leb, String.leb. split.
  - destruct (String.compare a b) eqn:E; try discriminate; intros _.
    + right. now apply String.compare_eq_iff.
    + now left.
  - intros [-> | ->]; [reflexivity | now rewrite string_compare_refl].
Qed.

Lemma key_le_trans (a b c : string) : key_le a b -> key_le b c -> key_le a c.
Proof.
  rewrite !key_le_cases. intros [Hab | ->] [Hbc | ->]; auto.
  left. eapply string_compare_lt_trans; eassumption.
Qed.

Lemma key_le_antisym (a b : string) : key_le a b -> key_le b a -> a = b.
Proof. apply String.leb_antisym. Qed.

(** ** Sorting *)

Lemma sort_permutation (arr : list string) : Permutation arr (sort arr).
Proof. apply KeySort.Permuted_sort. Qed.

Lemma sort_sorted (arr : list string) : StronglySorted key_le (sort arr).
Proof.
  apply (KeySort.StronglySorted_sort arr).
  intros a b c. apply key_le_trans.
Qed.

(** A sorted arrangement of given keys is unique. *)
Lemma sorted_unique (l1 l2 : list string) :
  StronglySorted key_le l1 -> StronglySorted key_le l2 -> Permutation l1 l2 -> l1 = l2.
Proof.
  intros S1. revert l2. induction S1 as [|a l1 S1 IH Ha]; intros l2 S2 P.
  - apply Permutation_nil in P. now subst.
  - destruct S2 as [|b l2 S2 Hb].
    + apply Permutation_sym, Permutation_nil in P. discriminate.
    + assert (a = b) as ->.
      { rewrite Forall_forall in Ha, Hb.
        assert (Ia : In a (b :: l2)) by (eapply Permutation_in; [exact P | now left]).
        assert (Ib : In b (a :: l1))
          by (eapply Permutation_in; [apply Permutation_sym; exact P | now left]).
        destruct Ia as [-> | Ia]; [reflexivity|].
        destruct Ib as [-> | Ib]; [reflexivity|].
        apply key_le_antisym; auto. }
      f_equal. apply IH; [assumption|]. eapply Permutation_cons_inv; exact P.
Qed.

Lemma sort_of_permutation (l1 l2 : list string) :
  Permutation l1 l2 -> sort l1 = sort l2.
Proof.
  intros P. apply sorted_unique; try apply sort_sorted.
  eapply Permutation_trans; [apply Permutation_sym, sort_permutation|].
  eapply Permutation_trans; [exact P | apply sort_permutation].
Qed.

(** ** Objects *)

Lemma get_own_In (o : obj) (k : string) (v : value) :
  get_own o k = Some v -> In (k, v) o.
Proof.
  induction o as [|[k' v'] o IH]; simpl; [discriminate|].
  destruct (String.eqb_spec k' k) as [-> | _].
  - intros [= ->]. now left.
  - intros H. right. now apply IH.
Qed.

Lemma In_get_own (o : obj) (k : string) (v : value) :
  NoDup (own_keys o) -> In (k, v) o -> get_own o k = Some v.
Proof.
  induction o as [|[k' v'] o IH]; simpl; [intros _ []|].
  intros N [E | I]; inversion N as [|? ? Hnot N']; subst.
  - injection E as -> ->. now rewrite String.eqb_refl.
  - destruct (String.eqb_spec k' k) as [-> | _]; [|now apply IH].
    exfalso. apply Hnot. unfold own_keys. change k with (fst (k, v)). now apply in_map.
Qed.

Lemma get_own_permutation (o1 o2 : obj) (k : string) :
  NoDup (own_keys o1) -> Permutation o1 o2 -> get_own o1 k = get_own o2 k.
Proof.
  intros N1 P.
  assert (N2 : NoDup (own_keys o2)).
  { eapply Permutation_NoDup; [|exact N1]. now apply Permutation_map. }
  destruct (get_own o1 k) as [v|] eqn:E1.
  - symmetry. apply In_get_own; [assumption|].
    eapply Permutation_in; [exact P | now apply get_own_In].
  - destruct (get_own o2 k) as [v|] eqn:E2; [|reflexivity].
    apply get_own_In in E2.
    eapply Permutation_in in E2; [|apply Permutation_sym; exact P].
    apply (In_get_own _ _ _ N1) in E2. congruence.
Qed.

Lemma get_own_set_same (o : obj) (k : string) (v : value) :
  get_own (obj_set o k v) k = Some v.
Proof.
  induction o as [|[k' v'] o IH]; simpl.
  - now rewrite String.eqb_refl.
  - destruct (k' =? k) eqn:E; simpl; rewrite E; [reflexivity | exact IH].
Qed.

Lemma get_own_set_other (o : obj) (k k' : string) (v : value) :
  k <> k' -> get_own (obj_set o k v) k' = get_own o k'.
Proof.
  intros D. induction o as [|[k0 v0] o IH]; simpl.
  - destruct (String.eqb_spec k k'); [contradiction | reflexivity].
  - destruct (String.eqb_spec k0 k) as [-> | _]; simpl.
    + destruct (String.eqb_spec k k'); [contradiction | reflexivity].
    + destruct (k0 =? k'); [reflexivity | exact IH].
Qed.

Lemma has_own_set_same (o : obj) (k : string) (v : value) :
  has_own (obj_set o k v) k = true.
Proof. unfold has_own. now rewrite get_own_set_same. Qed.

Lemma has_own_set_other (o : obj) (k k' : string) (v : value) :
  k <> k' -> has_own (obj_set o k v) k' = has_own o k'.
Proof. intros D. unfold has_own. now rewrite get_own_set_other. Qed.

(** ** The canonical string *)

Lemma concat_flat (sep x : string) (xs : list string) :
  String.concat sep (x :: xs) = x ++ flat (map (String.append sep) xs).
Proof.
  revert x. induction xs as [|y xs IH]; intros x.
  - simpl. now rewrite append_nil_r.
  - change (String.concat sep (x :: y :: xs)) with (x ++ sep ++ String.concat sep (y :: xs)).
    rewrite IH. simpl. now rewrite append_assoc.
Qed.

Lemma format_pairs_later (o : obj) (arr : list string) (i : nat) (acc : string) :
  format_pairs o arr (S i) acc =
  option_map (fun texts => acc ++ flat (map (String.append "&") texts))
    (sequence (map (pair_text o) arr)).
Proof.
  revert i acc. induction arr as [|key rest IH]; intros i acc; simpl.
  - now rewrite append_nil_r.
  - unfold pair_text at 1. destruct (ToString (prop o key)) as [text|]; simpl; [|reflexivity].
    rewrite IH. destruct (sequence (map (pair_text o) rest)) as [texts|]; simpl; [|reflexivity].
    now rewrite !append_assoc.
Qed.

Lemma format_pairs_joined (o : obj) (arr : list string) :
  format_pairs o arr 0 "" = joined_pairs o arr.
Proof.
  unfold joined_pairs.
  destruct arr as [|key rest]; [reflexivity|].
  cbn [format_pairs map sequence Nat.eqb]. unfold pair_text at 1.
  destruct (ToString (prop o key)) as [text|]; simpl bind; [|reflexivity].
  rewrite format_pairs_later.
  destruct (sequence (map (pair_text o) rest)) as [texts|]; cbn [option_map bind]; [|reflexivity].
  now rewrite concat_flat, !append_assoc.
Qed.

Lemma stringify_collect (o : obj) :
  stringifyToOKCoinFormat o =
  (arr <- collect_keys o (own_keys o) ;; joined_pairs o (sort arr)).
Proof.
  unfold stringifyToOKCoinFormat.
  destruct (collect_keys o (own_keys o)) as [arr|]; [|reflexivity].
  apply format_pairs_joined.
Qed.

(** Without an own property [hasOwnProperty] the guard is the built-in. *)
Lemma hasOwnProperty_call_inherited (o : obj) (i : string) :
  get_own o "hasOwnProperty" = None -> hasOwnProperty_call o i = Some (has_own o i).
Proof. intros H. unfold hasOwnProperty_call, prop. rewrite H. reflexivity. Qed.

Lemma collect_keys_inherited (o : obj) (keys : list string) :
  get_own o "hasOwnProperty" = None ->
  (forall k, In k keys -> has_own o k = true) ->
  collect_keys o keys = Some keys.
Proof.
  intros H. induction keys as [|k keys IH]; intros A; [reflexivity|].
  simpl. rewrite (hasOwnProperty_call_inherited o k H), (A k (or_introl eq_refl)).
  cbn [bind]. rewrite IH by (intros k' I; apply A; now right). reflexivity.
Qed.

Lemma has_own_keys (o : obj) (k : string) : has_own o k = true <-> In k (own_keys o).
Proof.
  unfold has_own. induction o as [|[k' v'] o IH]; simpl.
  - split; [discriminate | intros []].
  - destruct (String.eqb_spec k' k) as [-> | D].
    + split; auto.
    + rewrite IH. split; [auto | intros [E | I]; [contradiction | exact I]].
Qed.

Lemma stringify_joined_pairs (o : obj) :
  get_own o "hasOwnProperty" = None ->
  stringifyToOKCoinFormat o = joined_pairs o (sort (own_keys o)).
Proof.
  intros H. rewrite stringify_collect, (collect_keys_inherited o (own_keys o) H).
  - reflexivity.
  - intros k. apply has_own_keys.
Qed.

Lemma pair_text_ext (o1 o2 : obj) (k : string) :
  get_own o1 k = get_own o2 k -> pair_text o1 k = pair_text o2 k.
Proof. intros E. unfold pair_text, prop. now rewrite E. Qed.

Lemma joined_pairs_ext (o1 o2 : obj) (keys : list string) :
  (forall k, get_own o1 k = get_own o2 k) -> joined_pairs o1 keys = joined_pairs o2 keys.
Proof.
  intros E. unfold joined_pairs. do 2 f_equal.
  apply map_ext. intros k. now apply pair_text_ext.
Qed.

Lemma hasOwnProperty_call_ext (o1 o2 : obj) (i : string) :
  (forall k, get_own o1 k = get_own o2 k) ->
  hasOwnProperty_call o1 i = hasOwnProperty_call o2 i.
Proof.
  intros E.
  assert (P : forall k, prop o1 k = prop o2 k) by (intros k; unfold prop; now rewrite E).
  assert (H : forall k, has_own o1 k = has_own o2 k)
    by (intros k; unfold has_own; now rewrite E).
  assert (C : forall name key, call_simple name o1 key = call_simple name o2 key)
    by (intros name key; unfold call_simple; now rewrite H).
  unfold hasOwnProperty_call, call_builtin. rewrite !P.
  destruct (prop o2 "hasOwnProperty"); try reflexivity.
  destruct (name =? "toLocaleString"); [|apply C].
  destruct (prop o2 "toString"); try reflexivity. apply C.
Qed.

Lemma collect_keys_permutation (o1 o2 : obj) (keys1 keys2 : list string) :
  (forall k, get_own o1 k = get_own o2 k) -> Permutation keys1 keys2 ->
  match collect_keys o1 keys1, collect_keys o2 keys2 with
  | Some arr1, Some arr2 => Permutation arr1 arr2
  | None, None => True
  | _, _ => False
  end.
Proof.
  intros E P.
  induction P as [|k ks1 ks2 P IH|a b ks|ks1 ks2 ks3 P1 IH1 P2 IH2].
  - simpl. constructor.
  - simpl. rewrite (hasOwnProperty_call_ext o1 o2 k E).
    destruct (hasOwnProperty_call o2 k) as [own|]; cbn [bind]; [|exact I].
    destruct (collect_keys o1 ks1), (collect_keys o2 ks2); cbn [bind]; try exact IH.
    destruct own; [now constructor | exact IH].
  - simpl. rewrite (hasOwnProperty_call_ext o1 o2 a E), (hasOwnProperty_call_ext o1 o2 b E).
    assert (R : match collect_keys o1 ks, collect_keys o2 ks with
                | Some arr1, Some arr2 => arr1 = arr2
                | None, None => True
                | _, _ => False
                end).
    { induction ks as [|k ks IHk]; simpl; [reflexivity|].
      rewrite (hasOwnProperty_call_ext o1 o2 k E).
      destruct (hasOwnProperty_call o2 k); cbn [bind]; [|exact I].
      destruct (collect_keys o1 ks), (collect_keys o2 ks); cbn [bind]; try exact IHk.
      now subst. }
    destruct (hasOwnProperty_call o2 b) as [ob|], (hasOwnProperty_call o2 a) as [oa|];
      cbn [bind]; try exact I.
    destruct (collect_keys o1 ks), (collect_keys o2 ks); cbn [bind]; try exact R.
    subst. destruct oa, ob; try apply Permutation_refl. constructor.
  - assert (R : match collect_keys o2 ks2, collect_keys o1 ks2 with
                | Some arr2, Some arr1 => arr1 = arr2
                | None, None => True
                | _, _ => False
                end).
    { clear - E. induction ks2 as [|k ks IHk]; simpl; [reflexivity|].
      rewrite (hasOwnProperty_call_ext o1 o2 k E).
      destruct (hasOwnProperty_call o2 k); cbn [bind]; [|exact I].
      destruct (collect_keys o2 ks), (collect_keys o1 ks); cbn [bind]; try exact IHk.
      now subst. }
    destruct (collect_keys o1 ks1), (collect_keys o2 ks2), (collect_keys o1 ks2),
      (collect_keys o2 ks3); try contradiction; try exact I; subst;
      eapply Permutation_trans; eassumption.
Qed.

Lemma stringify_permutation (o1 o2 : obj) :
  NoDup (own_keys o1) -> Permutation o1 o2 ->
  stringifyToOKCoinFormat o1 = stringifyToOKCoinFormat o2.
Proof.
  intros N P. rewrite !stringify_collect.
  assert (E : forall k, get_own o1 k = get_own o2 k)
    by (intros k; now apply get_own_permutation).
  pose proof (collect_keys_permutation o1 o2 (own_keys o1) (own_keys o2) E
                (Permutation_map fst P)) as C.
  destruct (collect_keys o1 (own_keys o1)) as [arr1|],
           (collect_keys o2 (own_keys o2)) as [arr2|]; try contradiction; [|reflexivity].
  cbn [bind]. rewrite (sort_of_permutation arr1 arr2 C).
  now apply joined_pairs_ext.
Qed.

Lemma obj_set_fresh (o : obj) (k : string) (v : value) :
  ~ In k (own_keys o) -> obj_set o k v = (o ++ [(k, v)])%list.
Proof.
  induction o as [|[k' v'] o IH]; simpl; [reflexivity|].
  intros N. destruct (String.eqb_spec k' k) as [-> | _]; [tauto|].
  rewrite IH by tauto. reflexivity.
Qed.

Lemma assign_all_fresh (o : obj) (entries : list (string * value)) :
  NoDup (own_keys o ++ map fst entries)%list ->
  assign_all o entries = (o ++ entries)%list.
Proof.
  revert o. induction entries as [|[k v] entries IH]; intros o N; simpl.
  - now rewrite app_nil_r.
  - assert (F : ~ In k (own_keys o)).
    { apply NoDup_remove_2 in N. intros I. apply N. apply in_or_app. now left. }
    unfold assign_all in *. simpl. rewrite obj_set_fresh by exact F.
    rewrite IH.
    + now rewrite <- app_assoc.
    + unfold own_keys in *. rewrite map_app, <- app_assoc. exact N.
Qed.

(** Inserting the same pairs, with distinct keys, in two orders. *)
Lemma insertion_order_irrelevant (e1 e2 : list (string * value)) :
  NoDup (map fst e1) -> Permutation e1 e2 ->
  stringifyToOKCoinFormat (assign_all [] e1) = stringifyToOKCoinFormat (assign_all [] e2).
Proof.
  intros N P.
  assert (N2 : NoDup (map fst e2))
    by (eapply Permutation_NoDup; [apply Permutation_map; exact P | exact N]).
  rewrite !assign_all_fresh by assumption.
  now apply stringify_permutation.
Qed.

(** ** Conversions *)

Lemma scalar_printable (v : value) : scalar v = true -> printable v = true.
Proof. destruct v as [| |[|]| | | | | |]; simpl; try discriminate; reflexivity. Qed.

Lemma printable_Some (v : value) : printable v = true -> exists s, ToString v = Some s.
Proof. unfold printable. destruct (ToString v) as [s|]; [eauto | discriminate]. Qed.

Lemma ToString_array (items : list value) : ToString (JArr items) = array_join "," items.
Proof. reflexivity. Qed.

Lemma join_identifiers (ids : list value) :
  forallb identifier ids = true ->
  sequence (map join_element ids) = Some (map identifier_text ids).
Proof.
  induction ids as [|x ids IH]; simpl; [reflexivity|].
  intros H. apply andb_prop in H as [Hx Hids]. rewrite (IH Hids).
  destruct x; try discriminate; reflexivity.
Qed.

(** ** Signed requests *)

Section SignedRequests.

Variable md5 : string -> string.
Variable JSON_parse : string -> option value.
Variable JSON_stringify : value -> string.

Lemma invoke_unfold (config : obj) (call : private_call) (cb : callback) :
  invoke md5 JSON_parse JSON_stringify config call cb =
  (params <- call_params call ;;
   path <- versioned config (call_suffix call) ;;
   privateMethod md5 JSON_parse JSON_stringify config path params cb).
Proof.
  destruct call; try reflexivity.
  simpl. unfold orders_info. now destruct (flatten_ids orders_id).
Qed.

Lemma privateMethod_inv (config : obj) (path : string) (params : obj) (cb : callback)
  (req : pending) :
  privateMethod md5 JSON_parse JSON_stringify config path params cb = Some req ->
  exists base canonical secret,
    ToString (prop config "url") = Some base /\
    stringifyToOKCoinFormat (obj_set params "api_key" (prop config "api_key"))
      = Some canonical /\
    ToString (prop config "secret") = Some secret /\
    req = okcoinRequest JSON_parse JSON_stringify (base ++ path) "POST"
            (JObj (obj_set (obj_set params "api_key" (prop config "api_key")) "sign"
                     (JStr (toUpperCase (md5 (canonical ++ "&secret_key=" ++ secret))))))
            cb.
Proof.
  unfold privateMethod, getMessageSignature.
  destruct (ToString (prop config "url")) as [base|]; [|discriminate].
  cbn [bind].
  destruct (stringifyToOKCoinFormat _) as [canonical|]; [|discriminate].
  cbn [bind].
  destruct (ToString (prop config "secret")) as [secret|]; [|discriminate].
  cbn [bind]. intros [= <-]. exists base, canonical, secret.
  rewrite append_assoc. auto.
Qed.

Lemma call_params_unsigned (call : private_call) (params : obj) :
  call_params call = Some params -> has_own params "sign" = false.
Proof.
  destruct call; simpl.
  - intros [= <-]. reflexivity.
  - intros [= <-]. unfold trade_params.
    destruct (truthy amount), (truthy price); reflexivity.
  - intros [= <-]. reflexivity.
  - intros [= <-]. reflexivity.
  - destruct (flatten_ids orders_id); simpl; [|discriminate]. intros [= <-]. reflexivity.
  - intros [= <-]. reflexivity.
Qed.

Lemma call_params_unshadowed (call : private_call) (params : obj) :
  call_params call = Some params -> get_own params "hasOwnProperty" = None.
Proof.
  destruct call; simpl.
  - intros [= <-]. reflexivity.
  - intros [= <-]. unfold trade_params.
    destruct (truthy amount), (truthy price); reflexivity.
  - intros [= <-]. reflexivity.
  - intros [= <-]. reflexivity.
  - destruct (flatten_ids orders_id); simpl; [|discriminate]. intros [= <-]. reflexivity.
  - intros [= <-]. reflexivity.
Qed.

Lemma signed_unshadowed (call : private_call) (params : obj) (api_key : value) :
  call_params call = Some params ->
  get_own (obj_set params "api_key" api_key) "hasOwnProperty" = None.
Proof.
  intros Ep. rewrite get_own_set_other by discriminate.
  exact (call_params_unshadowed call params Ep).
Qed.

Lemma values_printable_set (o : obj) (k : string) (v : value) :
  values_printable o = true -> printable v = true ->
  values_printable (obj_set o k v) = true.
Proof.
  unfold values_printable. intros Ho Hv.
  induction o as [|[k' v'] o IH]; simpl in *.
  - now rewrite Hv.
  - apply andb_prop in Ho as [H1 H2].
    destruct (k' =? k); simpl; [now rewrite Hv, H2 | now rewrite H1, IH].
Qed.

Lemma values_printable_prop (o : obj) (k : string) :
  values_printable o = true -> In k (own_keys o) -> printable (prop o k) = true.
Proof.
  unfold values_printable. rewrite forallb_forall. intros Ho I.
  apply has_own_keys in I. unfold has_own in I. unfold prop.
  destruct (get_own o k) as [v|] eqn:E; [|discriminate].
  apply get_own_In in E. exact (Ho _ E).
Qed.

Lemma joined_pairs_total (o : obj) (keys : list string) :
  (forall k, In k keys -> printable (prop o k) = true) ->
  exists s, joined_pairs o keys = Some s.
Proof.
  unfold joined_pairs. intros H.
  assert (exists texts, sequence (map (pair_text o) keys) = Some texts) as [texts ->].
  { induction keys as [|k keys IH]; simpl; [eauto|].
    destruct (printable_Some _ (H k (or_introl eq_refl))) as [text Ek].
    destruct IH as [texts Et]; [intros k' I; apply H; now right|].
    unfold pair_text at 1. rewrite Ek, Et. simpl. eauto. }
  simpl. eauto.
Qed.

Lemma stringify_total (o : obj) :
  values_printable o = true -> exists s, joined_pairs o (sort (own_keys o)) = Some s.
Proof.
  intros H. apply joined_pairs_total. intros k I.
  apply values_printable_prop; [exact H|].
  eapply Permutation_in; [apply Permutation_sym, sort_permutation | exact I].
Qed.

Lemma call_params_total (call : private_call) :
  forallb printable (call_args call) = true ->
  exists params, call_params call = Some params /\ values_printable params = true.
Proof.
  destruct call; simpl; rewrite ?andb_true_r; intros H;
    repeat (apply andb_prop in H as [? H]).
  - eexists; split; reflexivity.
  - eexists; split; [reflexivity|]. unfold trade_params, values_printable.
    destruct (truthy amount), (truthy price); simpl;
      now rewrite ?H0, ?H1, ?H2, ?H.
  - eexists; split; [reflexivity|]. unfold values_printable. simpl.
    now rewrite H0, H.
  - eexists; split; [reflexivity|]. unfold values_printable. simpl.
    now rewrite H0, H.
  - assert (exists v, flatten_ids orders_id = Some v /\ printable v = true) as (v & -> & Hv).
    { destruct orders_id; simpl; eauto.
      apply printable_Some in H0 as [text E]. rewrite ToString_array in E.
      rewrite E. simpl. eauto. }
    eexists; split; [reflexivity|]. unfold values_printable. simpl.
    now rewrite Hv, H.
  - eexists; split; [reflexivity|]. unfold values_printable. simpl.
    now rewrite H0, H1, H2, H.
Qed.

Lemma invoke_total (config : obj) (call : private_call) (cb : callback) :
  printable (prop config "url") = true ->
  printable (prop config "version") = true ->
  printable (prop config "api_key") = true ->
  printable (prop config "secret") = true ->
  forallb printable (call_args call) = true ->
  exists req, invoke md5 JSON_parse JSON_stringify config call cb = Some req.
Proof.
  intros Hu Hv Hk Hs Ha. rewrite invoke_unfold.
  destruct (call_params_total call Ha) as (params & Ep & Hp). rewrite Ep.
  apply printable_Some in Hu as [base Eu], Hv as [version Ev], Hs as [secret Es].
  unfold versioned. rewrite Ev. cbn [bind].
  unfold privateMethod, getMessageSignature. rewrite Eu. cbn [bind].
  rewrite stringify_joined_pairs by exact (signed_unshadowed call params _ Ep).
  destruct (stringify_total (obj_set params "api_key" (prop config "api_key")))
    as [canonical ->]; [now apply values_printable_set|].
  cbn [bind]. rewrite Es. cbn [bind]. eauto.
Qed.

End SignedRequests.

(** ** Construction *)

Lemma value_undefined_dec (v : value) : {v = JUndefined} + {v <> JUndefined}.
Proof. destruct v; (now left) || (right; discriminate). Qed.

Lemma defaults_keeps (object source : obj) (k : string) (v : value) :
  get_own object k = Some v -> v <> JUndefined ->
  get_own (defaults object source) k = Some v.
Proof.
  intros E D. unfold defaults. revert object E.
  induction source as [|[k' v'] source IH]; intros object E; simpl; [exact E|].
  apply IH. destruct (String.eqb_spec k' k) as [-> | N].
  - rewrite E. destruct v; try exact E. contradiction.
  - destruct (get_own object k') as [[]|]; try exact E;
      now rewrite get_own_set_other.
Qed.

Lemma defaults_other (object source : obj) (k : string) :
  ~ In k (own_keys source) -> get_own (defaults object source) k = get_own object k.
Proof.
  unfold defaults. revert object.
  induction source as [|[k' v'] source IH]; intros object N; simpl; [reflexivity|].
  simpl in N. rewrite IH by tauto.
  destruct (get_own object k') as [[]|]; try reflexivity;
    apply get_own_set_other; tauto.
Qed.

Lemma defaults_fills (object source : obj) (k : string) (v : value) :
  NoDup (own_keys source) -> In (k, v) source ->
  get_own object k = None \/ get_own object k = Some JUndefined ->
  get_own (defaults object source) k = Some v.
Proof.
  intros N I E. unfold defaults. revert object E.
  induction source as [|[k' v'] source IH]; intros object E; [destruct I|].
  simpl. inversion N as [|? ? Hnot N']; subst. destruct I as [[= -> ->] | I].
  - fold (defaults (match get_own object k with
                    | None | Some JUndefined => obj_set object k v
                    | Some _ => object
                    end) source).
    rewrite defaults_other by exact Hnot.
    destruct E as [-> | ->]; apply get_own_set_same.
  - apply (IH N' I).
    assert (k' <> k).
    { intros ->. apply Hnot. change k with (fst (k, v)). now apply in_map. }
    destruct (get_own object k') as [[]|]; try exact E;
      now rewrite get_own_set_other.
Qed.

(** * The claims *)

(** ** Canonical string *)

(** C3, as stated, fails: the key [hasOwnProperty] holding a number makes
    a parameter set for which the sorted pairs would read
    [hasOwnProperty=1], but the canonicaliser throws on it, because its
    guard [obj.hasOwnProperty(i)] calls that number. *)
Lemma shadowed_guard_throws :
  joined_pairs [("hasOwnProperty", JNum 1)] (sort (own_keys [("hasOwnProperty", JNum 1)]))
    = Some "hasOwnProperty=1" /\
  stringifyToOKCoinFormat [("hasOwnProperty", JNum 1)] = None.
Proof. split; reflexivity. Qed.

(** C3, amended.  For a parameter set that has no key named
    [hasOwnProperty], the canonical string is the [&]-joined list of its
    [key=value] pairs, the keys being all own keys arranged in ascending
    byte-wise order and each value printed by its plain string conversion;
    the join puts the separator between pairs only.  It exists whenever
    every value converts, and it is the empty string for the empty
    parameter set. *)
Theorem canonical_string_sorted_pairs (o : obj) :
  get_own o "hasOwnProperty" = None ->
  (exists keys,
      Permutation (own_keys o) keys /\ StronglySorted key_le keys /\
      stringifyToOKCoinFormat o = joined_pairs o keys) /\
  (values_printable o = true -> exists text, stringifyToOKCoinFormat o = Some text) /\
  stringifyToOKCoinFormat [] = Some "".
Proof.
  intros U. split; [|split].
  - exists (sort (own_keys o)).
    split; [apply sort_permutation|]. split; [apply sort_sorted|].
    now apply stringify_joined_pairs.
  - intros H. rewrite stringify_joined_pairs by exact U. now apply stringify_total.
  - reflexivity.
Qed.

Lemma canonical_string_sorted_pairs_witness :
  stringifyToOKCoinFormat
    [("symbol", JStr "btc_cny"); ("amount", JNum 1); ("api_key", JStr "k")]
  = Some "amount=1&api_key=k&symbol=btc_cny".
Proof.
  destruct (canonical_string_sorted_pairs
              [("symbol", JStr "btc_cny"); ("amount", JNum 1); ("api_key", JStr "k")]
              eq_refl)
    as (_ & total & _).
  destruct (total eq_refl) as [text E].
  rewrite E. vm_compute in E. symmetry. exact E.
Defined.

(** C8.  Two parameter sets holding the same key-value pairs, whatever the
    order in which the keys were inserted, have the same canonical string
    and, for one secret, the same signature. *)
Theorem canonical_string_order_independent (md5 : string -> string)
  (config o1 o2 : obj) :
  NoDup (own_keys o1) -> Permutation o1 o2 ->
  stringifyToOKCoinFormat o1 = stringifyToOKCoinFormat o2 /\
  getMessageSignature md5 config o1 = getMessageSignature md5 config o2.
Proof.
  intros N P.
  assert (E : stringifyToOKCoinFormat o1 = stringifyToOKCoinFormat o2)
    by now apply stringify_permutation.
  split; [exact E|]. unfold getMessageSignature. now rewrite E.
Qed.

Lemma canonical_string_order_independent_witness :
  let o1 := obj_set (obj_set (obj_set [] "symbol" (JStr "btc_cny")) "type" (JStr "buy"))
              "api_key" (JStr "key") in
  let o2 := obj_set (obj_set (obj_set [] "api_key" (JStr "key")) "symbol" (JStr "btc_cny"))
              "type" (JStr "buy") in
  stringifyToOKCoinFormat o1 = stringifyToOKCoinFormat o2 /\
  getMessageSignature sample_digest sample_config o1 =
  getMessageSignature sample_digest sample_config o2.
Proof.
  apply canonical_string_order_independent.
  - repeat constructor; simpl; intuition discriminate.
  - simpl. eapply perm_trans; [apply perm_skip, perm_swap | apply perm_swap].
Defined.

(** ** Signature *)

(** C2.  Every private request carries as [sign] the upper-cased digest of
    the canonical string of its parameters with [api_key] set, followed by
    [&secret_key=] and the secret; the object that is signed has no [sign]
    key, which is added afterwards.  The request is produced whenever the
    configuration and the arguments convert to strings. *)
Theorem private_request_signature (md5 : string -> string)
  (JSON_parse : string -> option value) (JSON_stringify : value -> string)
  (config : obj) (call : private_call) (cb : callback) :
  (forall req, invoke md5 JSON_parse JSON_stringify config call cb = Some req ->
     exists params canonical secret,
       call_params call = Some params /\
       let signed := obj_set params "api_key" (prop config "api_key") in
       get_own signed "api_key" = Some (prop config "api_key") /\
       ~ In "sign" (own_keys signed) /\
       stringifyToOKCoinFormat signed = Some canonical /\
       ToString (prop config "secret") = Some secret /\
       form (options req) =
         JObj (obj_set signed "sign"
                 (JStr (toUpperCase (md5 (canonical ++ "&secret_key=" ++ secret)))))) /\
  (printable (prop config "url") = true ->
   printable (prop config "version") = true ->
   printable (prop config "api_key") = true ->
   printable (prop config "secret") = true ->
   forallb printable (call_args call) = true ->
   exists req, invoke md5 JSON_parse JSON_stringify config call cb = Some req).
Proof.
  split; [|apply invoke_total].
  intros req. rewrite invoke_unfold.
  destruct (call_params call) as [params|] eqn:Ep; [|discriminate]. cbn [bind].
  destruct (versioned config (call_suffix call)) as [path|]; [|discriminate]. cbn [bind].
  intros H. apply privateMethod_inv in H as (base & canonical & secret & _ & Ec & Es & ->).
  exists params, canonical, secret. split; [reflexivity|]. cbv zeta.
  split; [apply get_own_set_same|]. split.
  - rewrite <- has_own_keys, has_own_set_other by discriminate.
    rewrite (call_params_unsigned call params Ep). discriminate.
  - auto.
Qed.

Lemma private_request_signature_witness :
  exists req,
    invoke sample_digest sample_parse sample_stringify sample_config
      (CancelOrder (JNum 42) (JStr "btc_cny")) UserFunction = Some req /\
    form (options req) =
      JObj [("order_id", JNum 42); ("symbol", JStr "btc_cny"); ("api_key", JStr "key");
            ("sign", JStr (toUpperCase (sample_digest
               "api_key=key&order_id=42&symbol=btc_cny&secret_key=secret")))].
Proof.
  pose proof (private_request_signature sample_digest sample_parse sample_stringify
                sample_config (CancelOrder (JNum 42) (JStr "btc_cny")) UserFunction)
    as [sound total].
  destruct (total eq_refl eq_refl eq_refl eq_refl eq_refl) as [req E].
  exists req. split; [exact E|].
  destruct (sound req E) as (params & canonical & secret & Ep & _ & _ & Ec & Es & ->).
  injection Ep as <-. vm_compute in Ec, Es.
  injection Ec as <-. injection Es as <-. reflexivity.
Defined.

(** ** Endpoint parameters *)

(** C6.  Called with a sequence of identifiers, [orders_info] sends under
    [order_id] the single comma-separated string of those identifiers,
    which is also what it sends when called with that string: the two
    calls make the same request.  The request is made whenever the
    configuration and the symbol convert to strings. *)
Theorem orders_info_sequence_as_joined_string (md5 : string -> string)
  (JSON_parse : string -> option value) (JSON_stringify : value -> string)
  (config : obj) (ids : list value) (symbol : value) (cb : callback) :
  forallb identifier ids = true ->
  orders_info md5 JSON_parse JSON_stringify config (JArr ids) symbol cb =
  orders_info md5 JSON_parse JSON_stringify config (JStr (comma_joined ids)) symbol cb /\
  (forall req,
     orders_info md5 JSON_parse JSON_stringify config (JArr ids) symbol cb = Some req ->
     exists sent,
       form (options req) = JObj sent /\
       get_own sent "order_id" = Some (JStr (comma_joined ids))) /\
  (forall req,
     orders_info md5 JSON_parse JSON_stringify config (JStr (comma_joined ids)) symbol cb
       = Some req ->
     exists sent,
       form (options req) = JObj sent /\
       get_own sent "order_id" = Some (JStr (comma_joined ids))) /\
  (printable (prop config "url") = true ->
   printable (prop config "version") = true ->
   printable (prop config "api_key") = true ->
   printable (prop config "secret") = true ->
   printable symbol = true ->
   exists req,
     orders_info md5 JSON_parse JSON_stringify config (JArr ids) symbol cb = Some req).
Proof.
  intros H.
  assert (J : array_join "," ids = Some (comma_joined ids)).
  { unfold array_join. now rewrite (join_identifiers ids H). }
  assert (E : flatten_ids (JArr ids) = Some (JStr (comma_joined ids))).
  { unfold flatten_ids. now rewrite J. }
  assert (Q : orders_info md5 JSON_parse JSON_stringify config (JArr ids) symbol cb =
              orders_info md5 JSON_parse JSON_stringify config (JStr (comma_joined ids))
                symbol cb).
  { unfold orders_info. rewrite E. reflexivity. }
  assert (S : forall req,
     orders_info md5 JSON_parse JSON_stringify config (JStr (comma_joined ids)) symbol cb
       = Some req ->
     exists sent,
       form (options req) = JObj sent /\
       get_own sent "order_id" = Some (JStr (comma_joined ids))).
  { intros req. unfold orders_info. cbn [flatten_ids bind].
    destruct (versioned config "/orders_info.do") as [path|]; [|discriminate].
    cbn [bind]. intros R.
    apply privateMethod_inv in R as (base & canonical & secret & _ & _ & _ & ->).
    eexists. split; [reflexivity|].
    rewrite !get_own_set_other by discriminate. reflexivity. }
  split; [exact Q|]. split; [|split; [exact S|]].
  - intros req R. apply S. now rewrite <- Q.
  - intros Hu Hv Hk Hs Hy.
    apply (invoke_total md5 JSON_parse JSON_stringify config (OrdersInfo (JArr ids) symbol)
             cb Hu Hv Hk Hs).
    cbn [call_args forallb]. rewrite Hy. unfold printable.
    now rewrite ToString_array, J.
Qed.

Lemma orders_info_sequence_as_joined_string_witness :
  comma_joined [JStr "1"; JStr "2"; JStr "3"] = "1,2,3" /\
  exists req sent,
    orders_info sample_digest sample_parse sample_stringify sample_config
      (JArr [JStr "1"; JStr "2"; JStr "3"]) (JStr "btc_cny") UserFunction = Some req /\
    orders_info sample_digest sample_parse sample_stringify sample_config
      (JStr "1,2,3") (JStr "btc_cny") UserFunction = Some req /\
    form (options req) = JObj sent /\
    get_own sent "order_id" = Some (JStr "1,2,3").
Proof.
  split; [reflexivity|].
  destruct (orders_info_sequence_as_joined_string sample_digest sample_parse
              sample_stringify sample_config [JStr "1"; JStr "2"; JStr "3"]
              (JStr "btc_cny") UserFunction eq_refl) as (Q & A & _ & T).
  destruct (T eq_refl eq_refl eq_refl eq_refl eq_refl) as [req R].
  destruct (A req R) as (sent & F & G).
  exists req, sent. split; [exact R|]. split; [|split; [exact F | exact G]].
  rewrite <- R. symmetry. exact Q.
Defined.

(** C7.  In the parameter set [trade] builds, and in the one it sends,
    [amount] is a key exactly when the amount argument is truthy, [price]
    is a key exactly when the price argument is truthy, and [symbol] and
    [type] always are keys. *)
Theorem trade_optional_parameters (md5 : string -> string)
  (JSON_parse : string -> option value) (JSON_stringify : value -> string)
  (config : obj) (symbol type price amount : value) (cb : callback) :
  (has_own (trade_params symbol type price amount) "amount" = truthy amount /\
   has_own (trade_params symbol type price amount) "price" = truthy price /\
   has_own (trade_params symbol type price amount) "symbol" = true /\
   has_own (trade_params symbol type price amount) "type" = true) /\
  (forall req,
     trade md5 JSON_parse JSON_stringify config symbol type price amount cb = Some req ->
     exists sent,
       form (options req) = JObj sent /\
       has_own sent "amount" = truthy amount /\
       has_own sent "price" = truthy price /\
       has_own sent "symbol" = true /\
       has_own sent "type" = true).
Proof.
  assert (P : has_own (trade_params symbol type price amount) "amount" = truthy amount /\
              has_own (trade_params symbol type price amount) "price" = truthy price /\
              has_own (trade_params symbol type price amount) "symbol" = true /\
              has_own (trade_params symbol type price amount) "type" = true).
  { unfold trade_params. destruct (truthy amount), (truthy price); repeat split. }
  split; [exact P|].
  intros req. unfold trade.
  destruct (versioned config "/trade.do") as [path|]; [|discriminate]. cbn [bind].
  intros H. apply privateMethod_inv in H as (base & canonical & secret & _ & _ & _ & ->).
  eexists. split; [reflexivity|].
  rewrite !(has_own_set_other _ "sign") by discriminate.
  rewrite !(has_own_set_other _ "api_key") by discriminate.
  exact P.
Qed.

Lemma trade_optional_parameters_witness :
  exists req sent,
    trade sample_digest sample_parse sample_stringify sample_config
      (JStr "btc_cny") (JStr "buy") (JNum 100) JNull UserFunction = Some req /\
    form (options req) = JObj sent /\
    has_own sent "amount" = false /\ has_own sent "price" = true.
Proof.
  destruct (trade sample_digest sample_parse sample_stringify sample_config
              (JStr "btc_cny") (JStr "buy") (JNum 100) JNull UserFunction)
    as [req|] eqn:E; [|vm_compute in E; discriminate].
  destruct (proj2 (trade_optional_parameters sample_digest sample_parse sample_stringify
                     sample_config (JStr "btc_cny") (JStr "buy") (JNum 100) JNull
                     UserFunction) req E)
    as (sent & Ef & Ha & Hp & _).
  exists req, sent. auto.
Defined.

(** ** Response handling *)

(** C9.  When the callback argument is not a function, the handler of
    every request invokes nothing and raises nothing, whatever the
    transport error and the body are. *)
Theorem non_function_callback_is_silent
  (JSON_parse : string -> option value) (JSON_stringify : value -> string)
  (url requestType : string) (params : value) (cb : callback)
  (error : value) (body : string) :
  is_function cb = false ->
  handler (okcoinRequest JSON_parse JSON_stringify url requestType params cb) error body
    = silent /\
  calls (on_response JSON_parse JSON_stringify cb error body) = [].
Proof.
  intros H. simpl. unfold on_response. rewrite H. split; reflexivity.
Qed.

Lemma non_function_callback_is_silent_witness :
  calls (on_response sample_parse sample_stringify (Other (JStr "done")) JNull
           body_known_code) = [].
Proof.
  apply (non_function_callback_is_silent sample_parse sample_stringify
           "https://www.okcoin.cn/api/v1/userinfo.do" "POST" JNull
           (Other (JStr "done")) JNull body_known_code eq_refl).
Defined.

Lemma Object_prototype_decimal (n : Z) : Object_prototype (decimal n) = None.
Proof.
  unfold decimal, NilZero.string_of_int, NilZero.string_of_uint.
  destruct (Z.to_int n) as [d | d]; destruct d; reflexivity.
Qed.

(** A numeric code without a catalogue entry: the returned object has the
    code and an [undefined] message. *)
Lemma unlisted_code_meaning (n : Z) :
  get_own error_codes (decimal n) = None ->
  error_code_meaning (JNum n) = Some (JObj [("code", JNum n); ("error", JUndefined)]).
Proof.
  intros H. unfold error_code_meaning. cbn [ToString bind]. unfold prop.
  rewrite H, Object_prototype_decimal. reflexivity.
Qed.

Lemma error_code_meaning_Some (code : value) (key : string) :
  ToString code = Some key ->
  error_code_meaning code = Some (JObj [("code", code); ("error", prop error_codes key)]).
Proof.
  intros E. unfold error_code_meaning. rewrite E. cbn [bind].
  now destruct (truthy (prop error_codes key)).
Qed.

(** C1 (the code departs from the claim).  For the payload with
    [error_code] 99999, which the catalogue does not list, the callback
    receives an error object with that code and no success payload, but
    the [error] field of the object is [undefined]: the text saying that
    the code is not supported is computed into [msg] and dropped. *)
Theorem unsupported_code_message_is_undefined :
  get_own error_codes "99999" = None /\
  error_code_meaning (JNum 99999)
    = Some (JObj [("code", JNum 99999); ("error", JUndefined)]) /\
  on_response sample_parse sample_stringify UserFunction JNull body_unknown_code
    = deliver (JObj [("code", JNum 99999); ("error", JUndefined)]) JNull.
Proof. repeat split. Qed.








(** ** Construction *)

Lemma OKCoin_setting (api_key secret : value) (settings : obj) (k : string) (v : value) :
  get_own settings k = Some v -> v <> JUndefined ->
  prop (OKCoin api_key secret (JObj settings)) k = v.
Proof.
  intros E D. unfold OKCoin, settings_object, prop. cbn [truthy].
  now rewrite (defaults_keeps _ _ k v E D).
Qed.

(** A key that the settings leave out, or hold as [undefined], takes the
    built-in default or the positional argument. *)
Lemma OKCoin_default (api_key secret : value) (settings : obj) (k : string) (d : value) :
  In (k, d) [ ("url", JStr "https://www.okcoin.cn/api"); ("version", JStr "v1");
              ("api_key", api_key); ("secret", secret) ] ->
  get_own settings k = None \/ get_own settings k = Some JUndefined ->
  prop (OKCoin api_key secret (JObj settings)) k = d.
Proof.
  intros I E. unfold OKCoin, settings_object, prop. cbn [truthy].
  rewrite (defaults_fills settings _ k d); [reflexivity | | exact I | exact E].
  repeat constructor; simpl; intuition discriminate.
Qed.

(** C10, as stated, fails: a settings object that has the key [api_key]
    with the value [undefined] does not replace the positional key. *)
Lemma undefined_setting_does_not_override :
  has_own [("api_key", JUndefined)] "api_key" = true /\
  prop (OKCoin (JStr "key") (JStr "secret") (JObj [("api_key", JUndefined)])) "api_key"
    = JStr "key".
Proof. split; reflexivity. Qed.

(** C10, amended.  A key of the settings object whose value is not
    [undefined] (in particular [url], [version], [api_key], [secret]) is
    the value the client uses, before the built-in defaults and the
    positional arguments: such an [api_key] is the one sent with every
    signed request, and such a [secret] is the one every signature is
    computed with. *)
Theorem settings_override_defaults (api_key secret : value) (settings : obj)
  (k : string) (v : value) :
  get_own settings k = Some v -> v <> JUndefined ->
  let config := OKCoin api_key secret (JObj settings) in
  prop config k = v /\
  (k = "api_key" ->
     forall md5 JSON_parse JSON_stringify call cb req,
       invoke md5 JSON_parse JSON_stringify config call cb = Some req ->
       exists sent, form (options req) = JObj sent /\ get_own sent "api_key" = Some v) /\
  (k = "secret" ->
     forall (md5 : string -> string) params canonical text,
       stringifyToOKCoinFormat params = Some canonical -> ToString v = Some text ->
       getMessageSignature md5 config params
         = Some (toUpperCase (md5 (canonical ++ "&secret_key=" ++ text)))).
Proof.
  intros E D config.
  assert (P : prop config k = v) by now apply OKCoin_setting.
  split; [exact P|]. split.
  - intros -> md5 JSON_parse JSON_stringify call cb req. rewrite invoke_unfold.
    destruct (call_params call) as [params|]; [|discriminate]. cbn [bind].
    destruct (versioned config (call_suffix call)) as [path|]; [|discriminate].
    cbn [bind]. intros H.
    apply privateMethod_inv in H as (base & canonical & sec & _ & _ & _ & ->).
    eexists. split; [reflexivity|].
    rewrite get_own_set_other by discriminate.
    now rewrite get_own_set_same, P.
  - intros -> md5 params canonical text Ec Et. unfold getMessageSignature.
    rewrite Ec, P, Et. cbn [bind]. now rewrite append_assoc.
Qed.

Lemma settings_override_defaults_witness :
  prop (OKCoin (JStr "key") (JStr "secret")
          (JObj [("api_key", JStr "other"); ("version", JUndefined)])) "api_key"
    = JStr "other".
Proof.
  apply (settings_override_defaults (JStr "key") (JStr "secret")
           [("api_key", JStr "other"); ("version", JUndefined)] "api_key" (JStr "other")
           eq_refl).
  discriminate.
Defined.

(** ** Further properties *)

(** X1.  A numeric code the catalogue lists is delivered with its
    catalogue message, and no success payload is delivered. *)
Theorem listed_code_message (n : Z) (message : value) :
  n <> 0%Z -> get_own error_codes (decimal n) = Some message ->
  classify (JObj [("error_code", JNum n)])
    = deliver (JObj [("code", JNum n); ("error", message)]) JNull.
Proof.
  intros D H. unfold classify. cbn [get_error_code prop get_own String.eqb Ascii.eqb Bool.eqb].
  cbn [truthy]. destruct (Z.eqb_spec n 0) as [E | _]; [contradiction|]. cbn [negb].
  rewrite (error_code_meaning_Some (JNum n) (decimal n) eq_refl).
  unfold prop. now rewrite H.
Qed.

Lemma listed_code_message_witness :
  classify (JObj [("error_code", JNum 10007)])
    = deliver (JObj [("code", JNum 10007); ("error", JStr "Signatures do not match")]) JNull.
Proof.
  apply (listed_code_message 10007 (JStr "Signatures do not match")).
  - discriminate.
  - reflexivity.
Defined.

(** X2.  The public endpoints send an unsigned [GET] without a body to
    the base URL followed by the version and the endpoint name. *)
Theorem public_endpoints_unsigned
  (JSON_parse : string -> option value) (JSON_stringify : value -> string)
  (config : obj) (cb : callback) (base version : string) :
  ToString (prop config "url") = Some base ->
  ToString (prop config "version") = Some version ->
  ticker JSON_parse JSON_stringify config cb
    = Some (okcoinRequest JSON_parse JSON_stringify
              (base ++ "/" ++ version ++ "/ticker.do") "GET" JNull cb) /\
  depth JSON_parse JSON_stringify config cb
    = Some (okcoinRequest JSON_parse JSON_stringify
              (base ++ "/" ++ version ++ "/depth.do") "GET" JNull cb) /\
  trades JSON_parse JSON_stringify config cb
    = Some (okcoinRequest JSON_parse JSON_stringify
              (base ++ "/" ++ version ++ "/trades.do") "GET" JNull cb).
Proof.
  intros U V. unfold ticker, depth, trades, versioned, publicMethod.
  rewrite U, V. cbn [bind]. rewrite !append_assoc. repeat split.
Qed.

Lemma public_endpoints_unsigned_witness :
  option_map options (ticker sample_parse sample_stringify sample_config UserFunction)
    = Some {| url := "https://www.okcoin.cn/api/v1/ticker.do"; method := "GET";
              form := JNull |}.
Proof.
  rewrite (proj1 (public_endpoints_unsigned sample_parse sample_stringify sample_config
                    UserFunction "https://www.okcoin.cn/api" "v1" eq_refl eq_refl)).
  reflexivity.
Defined.

(** X3.  A body that parses to [null] makes the handler raise before it
    calls the callback: reading [error_code] of [null] throws. *)
Theorem null_payload_raises
  (JSON_parse : string -> option value) (JSON_stringify : value -> string)
  (cb : callback) (error : value) (body : string) :
  is_function cb = true -> truthy error = false -> JSON_parse body = Some JNull ->
  on_response JSON_parse JSON_stringify cb error body = thrown.
Proof.
  intros F T P. unfold on_response. now rewrite F, T, P.
Qed.

Lemma null_payload_raises_witness :
  on_response sample_parse sample_stringify UserFunction JNull "null" = thrown.
Proof.
  apply (null_payload_raises sample_parse sample_stringify UserFunction JNull "null");
    reflexivity.
Defined.

(** X4.  Whatever the settings argument is, the configuration holds each
    of [url], [version], [api_key] and [secret]: with the value of the
    settings when they define the key, with the built-in default or the
    positional argument otherwise.  Falsy settings give exactly the four
    defaults. *)
Theorem configuration_complete (api_key secret settings : value) :
  (forall k, In k ["url"; "version"; "api_key"; "secret"] ->
     get_own (OKCoin api_key secret settings) k
       = Some (configured api_key secret settings k)) /\
  (truthy settings = false ->
     OKCoin api_key secret settings = builtin_defaults api_key secret).
Proof.
  split.
  - intros k I. unfold configured.
    change (OKCoin api_key secret settings)
      with (defaults (settings_object settings) (builtin_defaults api_key secret)).
    assert (F : In (k, prop (builtin_defaults api_key secret) k)
                  (builtin_defaults api_key secret)).
    { simpl in I. destruct I as [<- | [<- | [<- | [<- | []]]]]; simpl; auto. }
    assert (N : NoDup (own_keys (builtin_defaults api_key secret))).
    { repeat constructor; simpl; intuition discriminate. }
    destruct (get_own (settings_object settings) k) as [v|] eqn:E.
    + destruct (value_undefined_dec v) as [-> | D].
      * apply defaults_fills; auto.
      * rewrite (defaults_keeps _ _ k v E D). now destruct v.
    + apply defaults_fills; auto.
  - intros T. unfold OKCoin, settings_object. rewrite T. reflexivity.
Qed.

Lemma configuration_complete_witness :
  get_own (OKCoin (JStr "key") (JStr "secret")
             (JObj [("url", JStr "https://www.okcoin.com/api"); ("secret", JUndefined)]))
    "secret" = Some (JStr "secret").
Proof.
  apply (proj1 (configuration_complete (JStr "key") (JStr "secret")
                  (JObj [("url", JStr "https://www.okcoin.com/api");
                         ("secret", JUndefined)])) "secret").
  simpl. tauto.
Defined.

(** X5.  For every callback, also one that throws, the response handler
    invokes it at most once and never with both an error and data.  When
    the handler ends by an exception, either nothing was invoked (the
    exception is the handler's own) or the single invocation itself threw.
    With a callback that does not throw this is the handler [on_response]. *)
Theorem at_most_one_invocation
  (JSON_parse : string -> option value) (JSON_stringify : value -> string)
  (throws : value -> value -> bool) (cb : callback) (error : value) (body : string) :
  (length (calls (on_response_calling JSON_parse JSON_stringify throws cb error body))
     <= 1)%nat /\
  (forall err data,
     In (err, data)
        (calls (on_response_calling JSON_parse JSON_stringify throws cb error body)) ->
     err = JNull \/ data = JNull) /\
  (raised (on_response_calling JSON_parse JSON_stringify throws cb error body) = true ->
   calls (on_response_calling JSON_parse JSON_stringify throws cb error body) = [] \/
   exists err data,
     calls (on_response_calling JSON_parse JSON_stringify throws cb error body)
       = [(err, data)] /\ throws err data = true) /\
  on_response_calling JSON_parse JSON_stringify (fun _ _ => false) cb error body
    = on_response JSON_parse JSON_stringify cb error body.
Proof.
  assert (G : forall r, r = silent \/ r = thrown \/
                        (exists e, r = call_back throws e JNull) \/
                        (exists d, r = call_back throws JNull d) ->
              (length (calls r) <= 1)%nat /\
              (forall err data, In (err, data) (calls r) -> err = JNull \/ data = JNull) /\
              (raised r = true ->
               calls r = [] \/
               exists err data, calls r = [(err, data)] /\ throws err data = true)).
  { intros r [-> | [-> | [[e ->] | [d ->]]]]; simpl;
      (split; [lia|]); (split; [intros err data I | intros T]).
    - destruct I.
    - now left.
    - destruct I.
    - now left.
    - destruct I as [[= <- <-] | []]. now right.
    - right. eexists _, _. split; [reflexivity | exact T].
    - destruct I as [[= <- <-] | []]. now left.
    - right. eexists _, _. split; [reflexivity | exact T]. }
  assert (R : let r := on_response_calling JSON_parse JSON_stringify throws cb error body in
              r = silent \/ r = thrown \/
              (exists e, r = call_back throws e JNull) \/
              (exists d, r = call_back throws JNull d)).
  { unfold on_response_calling, classify_calling.
    destruct (is_function cb); [|now left].
    destruct (truthy error); [right; right; left; eauto|].
    destruct (JSON_parse body) as [data|]; [|right; right; left; eauto].
    destruct (get_error_code data) as [code|]; [|now right; left].
    destruct (truthy code); [|right; right; right; eauto].
    destruct (error_code_meaning code); [right; right; left; eauto | now right; left]. }
  destruct (G _ R) as (A & B & D).
  split; [exact A|]. split; [exact B|]. split; [exact D|].
  unfold on_response_calling, on_response, classify_calling, classify.
  destruct (is_function cb); [|reflexivity].
  destruct (truthy error); [reflexivity|].
  destruct (JSON_parse body) as [data|]; [|reflexivity].
  destruct (get_error_code data) as [code|]; [|reflexivity].
  destruct (truthy code); [|reflexivity].
  destruct (error_code_meaning code); reflexivity.
Qed.

Lemma decimal_nonempty (n : Z) : decimal n <> "".
Proof.
  unfold decimal, NilZero.string_of_int, NilZero.string_of_uint.
  destruct (Z.to_int n) as [d | d]; destruct d; discriminate.
Qed.

(** X6.  An [error_code] that is a non-empty string is an API error whose
    message is looked up by the text of the code: the text of a number
    finds the message the number finds.  Every non-empty string counts,
    also the text of zero, which as a number means success. *)
Theorem text_error_code (o : obj) :
  (forall s, get_own o "error_code" = Some (JStr s) -> s <> "" ->
     classify (JObj o)
       = deliver (JObj [("code", JStr s); ("error", prop error_codes s)]) JNull) /\
  (forall n, get_own o "error_code" = Some (JStr (decimal n)) ->
     exists e,
       classify (JObj o) = deliver (JObj [("code", JStr (decimal n)); ("error", e)]) JNull /\
       error_code_meaning (JNum n) = Some (JObj [("code", JNum n); ("error", e)])) /\
  (get_own o "error_code" = Some (JNum 0) -> classify (JObj o) = deliver JNull (JObj o)).
Proof.
  assert (S : forall s, get_own o "error_code" = Some (JStr s) -> s <> "" ->
     classify (JObj o)
       = deliver (JObj [("code", JStr s); ("error", prop error_codes s)]) JNull).
  { intros s E D.
    assert (C : get_error_code (JObj o) = Some (JStr s))
      by (unfold get_error_code, prop; now rewrite E).
    assert (T : truthy (JStr s) = true)
      by (simpl; now destruct (String.eqb_spec s "")).
    unfold classify. rewrite C, T.
    now rewrite (error_code_meaning_Some (JStr s) s eq_refl). }
  split; [exact S|]. split.
  - intros n E. exists (prop error_codes (decimal n)). split.
    + apply S; [exact E | apply decimal_nonempty].
    + now apply error_code_meaning_Some.
  - intros E.
    assert (C : get_error_code (JObj o) = Some (JNum 0))
      by (unfold get_error_code, prop; now rewrite E).
    unfold classify. now rewrite C.
Qed.

Lemma text_error_code_witness :
  classify (JObj [("error_code", JStr "10007")])
    = deliver (JObj [("code", JStr "10007"); ("error", JStr "Signatures do not match")])
        JNull.
Proof.
  apply (proj1 (text_error_code [("error_code", JStr "10007")]) "10007").
  - reflexivity.
  - discriminate.
Defined.

(** X7.  When [orders_info] gets past the flattening of its first
    argument, what it puts under [order_id] is never an array, prints as
    the argument prints, and is the argument itself unless that was an
    array; the flattening throws only on an array that does not print. *)
Theorem flatten_ids_text (orders_id : value) :
  (forall v, flatten_ids orders_id = Some v ->
     (forall items, v <> JArr items) /\
     ToString v = ToString orders_id /\
     ((forall items, orders_id <> JArr items) -> v = orders_id)) /\
  (flatten_ids orders_id = None ->
     printable orders_id = false /\ exists items, orders_id = JArr items).
Proof.
  split.
  - intros v E. destruct orders_id; simpl in E;
      try (injection E as <-; repeat split; (discriminate || reflexivity || auto)).
    destruct (array_join "," items) as [text|] eqn:J; [|discriminate].
    injection E as <-. split; [discriminate|]. split.
    + rewrite ToString_array, J. reflexivity.
    + intros H. now destruct (H items).
  - intros E. destruct orders_id; try discriminate. simpl in E.
    destruct (array_join "," items) as [text|] eqn:J; [discriminate|].
    split; [|eauto]. unfold printable. now rewrite ToString_array, J.
Qed.

Lemma flatten_ids_text_witness :
  flatten_ids (JArr []) = Some (JStr "") /\
  ToString (JStr "") = ToString (JArr []).
Proof.
  split; [reflexivity|].
  exact (proj1 (proj2 (proj1 (flatten_ids_text (JArr [])) (JStr "") eq_refl))).
Defined.

(** ** Private requests *)

Lemma flatten_ids_ToString (orders_id v : value) :
  flatten_ids orders_id = Some v -> ToString v = ToString orders_id.
Proof.
  destruct orders_id; try (now intros [= <-]).
  unfold flatten_ids. rewrite ToString_array.
  destruct (array_join "," items) as [text|]; [|discriminate].
  now intros [= <-].
Qed.

Lemma call_params_keys (call : private_call) (params : obj) :
  call_params call = Some params ->
  NoDup (own_keys params) /\
  ~ In "api_key" (own_keys params) /\ ~ In "sign" (own_keys params).
Proof.
  destruct call; simpl;
    [ | unfold trade_params; destruct (truthy amount), (truthy price) | | |
      destruct (flatten_ids orders_id); simpl; [|discriminate] | ];
    intros [= <-]; simpl;
    (split; [repeat constructor; simpl; intuition discriminate
            | split; intuition discriminate]).
Qed.

Lemma obj_remove_fresh (o : obj) (k : string) :
  ~ In k (own_keys o) -> obj_remove o k = o.
Proof.
  induction o as [|[k' v'] o IH]; simpl; [reflexivity|].
  intros N. destruct (String.eqb_spec k' k) as [-> | _]; [tauto|].
  simpl. rewrite IH by tauto. reflexivity.
Qed.

Lemma obj_remove_last (o : obj) (k : string) (v : value) :
  ~ In k (own_keys o) -> obj_remove (o ++ [(k, v)])%list k = o.
Proof.
  intros N. unfold obj_remove. rewrite filter_app. simpl.
  rewrite String.eqb_refl. simpl. rewrite app_nil_r. now apply obj_remove_fresh.
Qed.

Section PrivateRequests.

Variable md5 : string -> string.
Variable JSON_parse : string -> option value.
Variable JSON_stringify : value -> string.

(** What a private call that is sent looks like. *)
Lemma invoke_inv (config : obj) (call : private_call) (cb : callback) (req : pending) :
  invoke md5 JSON_parse JSON_stringify config call cb = Some req ->
  exists params base version canonical secret,
    call_params call = Some params /\
    ToString (prop config "url") = Some base /\
    ToString (prop config "version") = Some version /\
    stringifyToOKCoinFormat (params ++ [("api_key", prop config "api_key")])%list
      = Some canonical /\
    ToString (prop config "secret") = Some secret /\
    req = okcoinRequest JSON_parse JSON_stringify
            (base ++ "/" ++ version ++ call_suffix call) "POST"
            (JObj (params ++ [("api_key", prop config "api_key");
                              ("sign", JStr (toUpperCase
                                 (md5 (canonical ++ "&secret_key=" ++ secret))))])%list)
            cb.
Proof.
  rewrite invoke_unfold.
  destruct (call_params call) as [params|] eqn:Ep; [|discriminate]. cbn [bind].
  unfold versioned.
  destruct (ToString (prop config "version")) as [version|] eqn:Ev; [|discriminate].
  cbn [bind]. intros H.
  apply privateMethod_inv in H as (base & canonical & secret & Eu & Ec & Es & ->).
  destruct (call_params_keys call params Ep) as (_ & Nk & Ns).
  rewrite (obj_set_fresh params "api_key") in * by exact Nk.
  rewrite obj_set_fresh.
  - exists params, base, version, canonical, secret.
    rewrite <- !app_assoc, !append_assoc.
    repeat split; assumption.
  - unfold own_keys. rewrite map_app, in_app_iff. simpl.
    intros [I | [E | []]]; [now apply Ns | discriminate].
Qed.

End PrivateRequests.

(** X8.  A private request that is sent is a [POST] to the base URL
    followed by [/], the version and the endpoint's suffix, and its handler
    is the response handler for the caller's callback. *)
Theorem private_request_wire_format (md5 : string -> string)
  (JSON_parse : string -> option value) (JSON_stringify : value -> string)
  (config : obj) (call : private_call) (cb : callback) (req : pending)
  (base version : string) :
  ToString (prop config "url") = Some base ->
  ToString (prop config "version") = Some version ->
  invoke md5 JSON_parse JSON_stringify config call cb = Some req ->
  url (options req) = base ++ "/" ++ version ++ call_suffix call /\
  method (options req) = "POST" /\
  handler req = on_response JSON_parse JSON_stringify cb.
Proof.
  intros Eu Ev H.
  apply invoke_inv in H as (params & b & v & canonical & secret & _ & Eb & Ev' & _ & _ & ->).
  rewrite Eu in Eb. rewrite Ev in Ev'. injection Eb as <-. injection Ev' as <-.
  repeat split.
Qed.

Lemma private_request_wire_format_witness :
  option_map (fun p => url (options p))
    (invoke sample_digest sample_parse sample_stringify sample_config
       (OrderHistory (JStr "btc_cny") (JNum 0) (JNum 1) (JNum 200)) UserFunction)
  = Some "https://www.okcoin.cn/api/v1/order_history.do".
Proof.
  destruct (invoke sample_digest sample_parse sample_stringify sample_config
              (OrderHistory (JStr "btc_cny") (JNum 0) (JNum 1) (JNum 200)) UserFunction)
    as [req|] eqn:E; [|vm_compute in E; discriminate].
  simpl. f_equal.
  exact (proj1 (private_request_wire_format sample_digest sample_parse sample_stringify
                  sample_config _ UserFunction req "https://www.okcoin.cn/api" "v1"
                  eq_refl eq_refl E)).
Defined.

(** X9.  The parameter object a private request sends is the object the
    endpoint built from its arguments, unchanged and in the same order,
    followed by [api_key] and then [sign]; no key occurs twice in it. *)
Theorem sent_parameters (md5 : string -> string)
  (JSON_parse : string -> option value) (JSON_stringify : value -> string)
  (config : obj) (call : private_call) (cb : callback) (req : pending) :
  invoke md5 JSON_parse JSON_stringify config call cb = Some req ->
  exists params sign,
    call_params call = Some params /\
    form (options req)
      = JObj (params ++ [("api_key", prop config "api_key"); ("sign", JStr sign)])%list /\
    NoDup (own_keys (params ++ [("api_key", prop config "api_key");
                                ("sign", JStr sign)])%list).
Proof.
  intros H.
  apply invoke_inv in H as (params & b & v & canonical & secret & Ep & _ & _ & _ & _ & ->).
  exists params, (toUpperCase (md5 (canonical ++ "&secret_key=" ++ secret))).
  split; [exact Ep|]. split; [reflexivity|].
  destruct (call_params_keys call params Ep) as (N & Nk & Ns).
  unfold own_keys. rewrite map_app. simpl.
  apply NoDup_app; [exact N | | ].
  - repeat constructor; simpl; intuition discriminate.
  - intros k I [<- | [<- | []]]; [now apply Nk | now apply Ns].
Qed.

Lemma sent_parameters_witness :
  exists sign,
    sent_form (invoke sample_digest sample_parse sample_stringify sample_config
                 (Trade (JStr "ltc_cny") (JStr "sell_market") JNull (JNum 3)) UserFunction)
    = Some (JObj [("amount", JNum 3); ("symbol", JStr "ltc_cny");
                  ("type", JStr "sell_market"); ("api_key", JStr "key");
                  ("sign", JStr sign)]).
Proof.
  destruct (invoke sample_digest sample_parse sample_stringify sample_config
              (Trade (JStr "ltc_cny") (JStr "sell_market") JNull (JNum 3)) UserFunction)
    as [req|] eqn:E; [|vm_compute in E; discriminate].
  destruct (sent_parameters sample_digest sample_parse sample_stringify sample_config
              _ UserFunction req E) as (params & sign & Ep & Ef & _).
  exists sign. injection Ep as <-. simpl. now rewrite Ef.
Defined.

(** X10.  The signature a private request carries verifies: deleting
    [sign] from the parameters that were sent and signing what is left
    with the same secret gives the [sign] that was sent. *)
Theorem signature_verifies (md5 : string -> string)
  (JSON_parse : string -> option value) (JSON_stringify : value -> string)
  (config : obj) (call : private_call) (cb : callback) (req : pending) :
  invoke md5 JSON_parse JSON_stringify config call cb = Some req ->
  exists sent sign,
    form (options req) = JObj sent /\
    get_own sent "sign" = Some (JStr sign) /\
    getMessageSignature md5 config (obj_remove sent "sign") = Some sign.
Proof.
  intros H.
  apply invoke_inv in H as (params & b & v & canonical & secret & Ep & _ & _ & Ec & Es & ->).
  destruct (call_params_keys call params Ep) as (N & Nk & Ns).
  assert (F : ~ In "sign" (own_keys (params ++ [("api_key", prop config "api_key")])%list)).
  { unfold own_keys. rewrite map_app, in_app_iff. simpl.
    intros [I | [E | []]]; [now apply Ns | discriminate]. }
  eexists _, _. split; [reflexivity|]. split.
  - change [("api_key", prop config "api_key"); ("sign", ?s)]
      with ([("api_key", prop config "api_key")] ++ [("sign", s)])%list.
    rewrite app_assoc, <- obj_set_fresh by exact F. apply get_own_set_same.
  - change [("api_key", prop config "api_key"); ("sign", ?s)]
      with ([("api_key", prop config "api_key")] ++ [("sign", s)])%list.
    rewrite app_assoc, obj_remove_last by exact F.
    unfold getMessageSignature. rewrite Ec, Es. cbn [bind].
    now rewrite append_assoc.
Qed.

Lemma signature_verifies_witness :
  exists sent sign,
    sent_form (invoke sample_digest sample_parse sample_stringify sample_config
                 Userinfo UserFunction) = Some (JObj sent) /\
    get_own sent "sign" = Some (JStr sign) /\
    getMessageSignature sample_digest sample_config (obj_remove sent "sign") = Some sign.
Proof.
  destruct (invoke sample_digest sample_parse sample_stringify sample_config
              Userinfo UserFunction) as [req|] eqn:E; [|vm_compute in E; discriminate].
  destruct (signature_verifies sample_digest sample_parse sample_stringify sample_config
              Userinfo UserFunction req E) as (sent & sign & Ef & Eg & Ev).
  exists sent, sign. simpl. rewrite Ef. auto.
Defined.

Lemma joined_pairs_printable (o : obj) (keys : list string) (s : string) :
  joined_pairs o keys = Some s ->
  forall k, In k keys -> printable (prop o k) = true.
Proof.
  unfold joined_pairs.
  destruct (sequence (map (pair_text o) keys)) as [texts|] eqn:E; [|discriminate].
  intros _. revert texts E.
  induction keys as [|k0 keys IH]; intros texts E k I; [destruct I|].
  simpl in E. unfold pair_text at 1 in E. unfold printable.
  destruct (ToString (prop o k0)) as [t0|] eqn:E0; [|discriminate]. cbn [bind] in E.
  destruct (sequence (map (pair_text o) keys)) as [ts|] eqn:Es; [|discriminate].
  destruct I as [<- | I]; [now rewrite E0|].
  exact (IH ts eq_refl k I).
Qed.

Lemma falsy_printable (v : value) : truthy v = false -> printable v = true.
Proof. destruct v as [| |[|]| | | | | |]; simpl; try discriminate; reflexivity. Qed.

Lemma get_own_app_other (o : obj) (k k' : string) (v : value) :
  k' <> k -> get_own (o ++ [(k', v)])%list k = get_own o k.
Proof.
  intros D. induction o as [|[k0 v0] o IH]; simpl.
  - destruct (String.eqb_spec k' k); [contradiction | reflexivity].
  - now rewrite IH.
Qed.

Lemma signed_values_printable (o : obj) (s : string) :
  get_own o "hasOwnProperty" = None ->
  stringifyToOKCoinFormat o = Some s ->
  forall k, In k (own_keys o) -> printable (prop o k) = true.
Proof.
  intros U. rewrite stringify_joined_pairs by exact U. intros E k I.
  apply (joined_pairs_printable o _ s E).
  eapply Permutation_in; [apply sort_permutation | exact I].
Qed.

Lemma call_args_printable (call : private_call) (params : obj) (api_key : value)
  (s : string) :
  call_params call = Some params ->
  stringifyToOKCoinFormat (params ++ [("api_key", api_key)])%list = Some s ->
  printable api_key = true /\ forallb printable (call_args call) = true.
Proof.
  intros Ep Es.
  assert (U : get_own (params ++ [("api_key", api_key)])%list "hasOwnProperty" = None).
  { rewrite get_own_app_other by discriminate.
    exact (call_params_unshadowed call params Ep). }
  pose proof (signed_values_printable _ s U Es) as P. clear U.
  assert (K : forall k (v : value),
             In k (own_keys (params ++ [("api_key", api_key)])%list) ->
             prop (params ++ [("api_key", api_key)])%list k = v ->
             printable v = true).
  { intros k v I <-. now apply P. }
  clear P Es.
  destruct call; simpl in Ep;
    try (destruct (flatten_ids orders_id) as [flat_id|] eqn:F; [|discriminate];
         simpl in Ep);
    injection Ep as <-; try unfold trade_params in K.
  - split; [apply (K "api_key"); simpl; tauto | reflexivity].
  - cbn [call_args forallb].
    destruct (truthy amount) eqn:Ta, (truthy price) eqn:Tp;
      (split; [apply (K "api_key"); simpl; tauto|]);
      rewrite (K "symbol" symbol), (K "type" type) by (simpl; tauto);
      rewrite ?(falsy_printable _ Ta), ?(falsy_printable _ Tp);
      rewrite ?(K "amount" amount), ?(K "price" price) by (simpl; tauto);
      reflexivity.
  - split; [apply (K "api_key"); simpl; tauto|]. cbn [call_args forallb].
    rewrite (K "order_id" order_id), (K "symbol" symbol) by (simpl; tauto). reflexivity.
  - split; [apply (K "api_key"); simpl; tauto|]. cbn [call_args forallb].
    rewrite (K "order_id" order_id), (K "symbol" symbol) by (simpl; tauto). reflexivity.
  - split; [apply (K "api_key"); simpl; tauto|]. cbn [call_args forallb].
    assert (Pv : printable flat_id = true) by (apply (K "order_id"); simpl; tauto).
    assert (Po : printable orders_id = true).
    { unfold printable in *. now rewrite <- (flatten_ids_ToString orders_id flat_id F). }
    rewrite Po, (K "symbol" symbol) by (simpl; tauto). reflexivity.
  - split; [apply (K "api_key"); simpl; tauto|]. cbn [call_args forallb].
    rewrite (K "symbol" symbol), (K "status" status), (K "current_page" page),
      (K "page_length" pagesize) by (simpl; tauto).
    reflexivity.
Qed.

(** X11.  A private call hands a request to the transport exactly when
    the four configuration values and all arguments of the call convert to
    strings; otherwise it throws before any request is made. *)
Theorem private_call_sent_iff (md5 : string -> string)
  (JSON_parse : string -> option value) (JSON_stringify : value -> string)
  (config : obj) (call : private_call) (cb : callback) :
  (exists req, invoke md5 JSON_parse JSON_stringify config call cb = Some req) <->
  (forallb (fun k => printable (prop config k)) config_keys = true /\
   forallb printable (call_args call) = true).
Proof.
  split.
  - intros [req H].
    apply invoke_inv in H as (params & b & v & canonical & secret & Ep & Eu & Ev & Ec & Es & _).
    destruct (call_args_printable call params _ canonical Ep Ec) as [Pk Pa].
    split; [|exact Pa]. unfold config_keys. cbn [forallb].
    rewrite Pk. unfold printable. now rewrite Eu, Ev, Es.
  - intros [Hc Ha]. unfold config_keys in Hc. cbn [forallb] in Hc.
    apply andb_prop in Hc as [Hu Hc]. apply andb_prop in Hc as [Hv Hc].
    apply andb_prop in Hc as [Hk Hc]. apply andb_prop in Hc as [Hs _].
    now apply invoke_total.
Qed.

Lemma private_call_sent_iff_witness :
  invoke sample_digest sample_parse sample_stringify sample_config
    (CancelOrder (JObj [("toString", JNum 1)]) (JStr "btc_cny")) UserFunction = None.
Proof.
  destruct (invoke sample_digest sample_parse sample_stringify sample_config
              (CancelOrder (JObj [("toString", JNum 1)]) (JStr "btc_cny")) UserFunction)
    as [req|] eqn:E; [|reflexivity].
  destruct (proj1 (private_call_sent_iff sample_digest sample_parse sample_stringify
                     sample_config (CancelOrder (JObj [("toString", JNum 1)])
                                      (JStr "btc_cny")) UserFunction)
              (ex_intro _ req E)) as [_ Ha].
  discriminate Ha.
Defined.

(** X12.  The requests of a client depend on its configuration only
    through [url], [version], [api_key] and [secret]: two configurations
    that agree on these four make the same request for every endpoint. *)
Theorem requests_depend_on_four_settings (md5 : string -> string)
  (JSON_parse : string -> option value) (JSON_stringify : value -> string)
  (config1 config2 : obj) (cb : callback) :
  (forall k, In k config_keys -> prop config1 k = prop config2 k) ->
  (forall call,
     invoke md5 JSON_parse JSON_stringify config1 call cb
       = invoke md5 JSON_parse JSON_stringify config2 call cb) /\
  ticker JSON_parse JSON_stringify config1 cb = ticker JSON_parse JSON_stringify config2 cb /\
  depth JSON_parse JSON_stringify config1 cb = depth JSON_parse JSON_stringify config2 cb /\
  trades JSON_parse JSON_stringify config1 cb = trades JSON_parse JSON_stringify config2 cb.
Proof.
  intros H.
  assert (Eu : prop config1 "url" = prop config2 "url") by (apply H; simpl; tauto).
  assert (Ev : prop config1 "version" = prop config2 "version") by (apply H; simpl; tauto).
  assert (Ek : prop config1 "api_key" = prop config2 "api_key") by (apply H; simpl; tauto).
  assert (Es : prop config1 "secret" = prop config2 "secret") by (apply H; simpl; tauto).
  split; [|unfold ticker, depth, trades, versioned, publicMethod; rewrite Eu, Ev; auto].
  intros call. rewrite !invoke_unfold.
  unfold versioned, privateMethod, getMessageSignature.
  now rewrite Eu, Ev, Ek, Es.
Qed.

Lemma requests_depend_on_four_settings_witness :
  invoke sample_digest sample_parse sample_stringify
    (OKCoin (JStr "key") (JStr "secret") (JObj [("timeout", JNum 5000)]))
    Userinfo UserFunction
  = invoke sample_digest sample_parse sample_stringify sample_config Userinfo UserFunction.
Proof.
  apply (requests_depend_on_four_settings sample_digest sample_parse sample_stringify
           (OKCoin (JStr "key") (JStr "secret") (JObj [("timeout", JNum 5000)]))
           sample_config UserFunction).
  intros k [<- | [<- | [<- | [<- | []]]]]; reflexivity.
Defined.

(** X13.  The signature does not cover the endpoint: two private calls
    whose endpoints build the same parameter object send the same
    parameters, [sign] included.  So [cancel_order] and [order_info] with
    the same arguments carry the same signature. *)
Theorem signature_not_bound_to_endpoint (md5 : string -> string)
  (JSON_parse : string -> option value) (JSON_stringify : value -> string)
  (config : obj) (call1 call2 : private_call) (cb : callback) :
  call_params call1 = call_params call2 ->
  sent_form (invoke md5 JSON_parse JSON_stringify config call1 cb)
    = sent_form (invoke md5 JSON_parse JSON_stringify config call2 cb).
Proof.
  intros E. rewrite !invoke_unfold, E.
  destruct (call_params call2) as [params|]; [|reflexivity]. cbn [bind].
  unfold versioned.
  destruct (ToString (prop config "version")) as [version|]; [|reflexivity].
  cbn [bind]. unfold privateMethod.
  destruct (ToString (prop config "url")) as [base|]; [|reflexivity]. cbn [bind].
  destruct (getMessageSignature md5 config _) as [sign|]; reflexivity.
Qed.

Lemma signature_not_bound_to_endpoint_witness :
  sent_form (invoke sample_digest sample_parse sample_stringify sample_config
               (CancelOrder (JNum 42) (JStr "btc_cny")) UserFunction)
  = sent_form (invoke sample_digest sample_parse sample_stringify sample_config
                 (OrderInfo (JNum 42) (JStr "btc_cny")) UserFunction).
Proof.
  apply (signature_not_bound_to_endpoint sample_digest sample_parse sample_stringify
           sample_config (CancelOrder (JNum 42) (JStr "btc_cny"))
           (OrderInfo (JNum 42) (JStr "btc_cny")) UserFunction eq_refl).
Defined.

(** X14.  The text that is signed for each private call: the fields
    [key=value] joined by [&] in the fixed alphabetical order of the keys,
    [api_key] among them, the optional [amount] and [price] of [trade]
    present exactly when truthy, and the [order_id] of [orders_info]
    printed as its argument prints. *)
Theorem signed_text_of_call (api_key : value) (call : private_call) (params : obj) :
  call_params call = Some params ->
  stringifyToOKCoinFormat (obj_set params "api_key" api_key) = signed_text api_key call.
Proof.
  intros Ep.
  rewrite stringify_joined_pairs by exact (signed_unshadowed call params api_key Ep).
  destruct call; simpl in Ep;
    try (destruct (flatten_ids orders_id) as [flat_id|] eqn:F; [|discriminate];
         simpl in Ep);
    injection Ep as <-; try reflexivity.
  - unfold signed_text, signed_fields, optional_field, trade_params.
    destruct (truthy amount), (truthy price); reflexivity.
  - unfold signed_text, signed_fields, field.
    rewrite <- (flatten_ids_ToString orders_id flat_id F). reflexivity.
Qed.

Lemma signed_text_of_call_witness :
  stringifyToOKCoinFormat
    (obj_set (trade_params (JStr "btc_cny") (JStr "buy") (JNum 3500) (JNum 2))
       "api_key" (JStr "key"))
  = Some "amount=2&api_key=key&price=3500&symbol=btc_cny&type=buy".
Proof.
  rewrite (signed_text_of_call (JStr "key")
             (Trade (JStr "btc_cny") (JStr "buy") (JNum 3500) (JNum 2)) _ eq_refl).
  reflexivity.
Defined.

(** ** Delimiters and case *)

Lemma contains_append (c : ascii) (a b : string) :
  contains c (a ++ b) = contains c a || contains c b.
Proof.
  induction a as [|x a IH]; simpl; [reflexivity|].
  now rewrite IH, orb_assoc.
Qed.

Lemma append_sep_inj (c : ascii) (x y r r' : string) :
  contains c x = false -> contains c y = false ->
  x ++ String c r = y ++ String c r' -> x = y /\ r = r'.
Proof.
  revert y. induction x as [|a x IH]; intros [|b y]; simpl.
  - intros _ _ [= ->]. auto.
  - intros _ H [= <- _]. rewrite Ascii.eqb_refl in H. discriminate.
  - intros H _ [= -> _]. rewrite Ascii.eqb_refl in H. discriminate.
  - intros Hx Hy [= -> E].
    apply orb_false_elim in Hx as [_ Hx]. apply orb_false_elim in Hy as [_ Hy].
    destruct (IH y Hx Hy E) as [-> ->]. auto.
Qed.

Lemma concat_amp_inj (l1 l2 : list string) :
  (forall x, In x l1 -> contains "&" x = false /\ x <> "") ->
  (forall x, In x l2 -> contains "&" x = false /\ x <> "") ->
  String.concat "&" l1 = String.concat "&" l2 -> l1 = l2.
Proof.
  revert l2. induction l1 as [|x l1 IH]; intros [|y l2] H1 H2 E.
  - reflexivity.
  - exfalso. rewrite concat_flat in E. simpl in E.
    destruct (H2 y (or_introl eq_refl)) as [_ N]. destruct y; [now apply N | discriminate].
  - exfalso. rewrite concat_flat in E. simpl in E.
    destruct (H1 x (or_introl eq_refl)) as [_ N]. destruct x; [now apply N | discriminate].
  - destruct (H1 x (or_introl eq_refl)) as [Fx _].
    destruct (H2 y (or_introl eq_refl)) as [Fy _].
    destruct l1 as [|x2 l1], l2 as [|y2 l2].
    + simpl in E. now subst.
    + exfalso. change (x = y ++ String "&" (String.concat "&" (y2 :: l2))) in E.
      rewrite E, contains_append in Fx. simpl in Fx.
      rewrite orb_true_r in Fx. discriminate.
    + exfalso. change (x ++ String "&" (String.concat "&" (x2 :: l1)) = y) in E.
      rewrite <- E, contains_append in Fy. simpl in Fy.
      rewrite orb_true_r in Fy. discriminate.
    + change (x ++ String "&" (String.concat "&" (x2 :: l1))
              = y ++ String "&" (String.concat "&" (y2 :: l2))) in E.
      destruct (append_sep_inj _ _ _ _ _ Fx Fy E) as [-> E'].
      f_equal. apply IH; [| |exact E'].
      * intros z I. apply H1. now right.
      * intros z I. apply H2. now right.
Qed.

Lemma pair_texts_inj (o1 o2 : obj) (keys1 keys2 : list string) (texts : list string) :
  (forall k, In k keys1 -> contains "=" k = false) ->
  (forall k, In k keys2 -> contains "=" k = false) ->
  sequence (map (pair_text o1) keys1) = Some texts ->
  sequence (map (pair_text o2) keys2) = Some texts ->
  keys1 = keys2 /\
  forall k, In k keys1 -> ToString (prop o1 k) = ToString (prop o2 k).
Proof.
  revert keys2 texts.
  induction keys1 as [|k1 keys1 IH]; intros [|k2 keys2] texts F1 F2 E1 E2; simpl in E1, E2.
  - split; [reflexivity | intros k []].
  - exfalso. injection E1 as <-.
    destruct (pair_text o2 k2); [|discriminate]. cbn [bind] in E2.
    destruct (sequence (map (pair_text o2) keys2)); discriminate.
  - exfalso. injection E2 as <-.
    destruct (pair_text o1 k1); [|discriminate]. cbn [bind] in E1.
    destruct (sequence (map (pair_text o1) keys1)); discriminate.
  - unfold pair_text at 1 in E1. unfold pair_text at 1 in E2.
    destruct (ToString (prop o1 k1)) as [t1|] eqn:T1; [|discriminate].
    destruct (ToString (prop o2 k2)) as [t2|] eqn:T2; [|discriminate].
    cbn [bind] in E1, E2.
    destruct (sequence (map (pair_text o1) keys1)) as [ts1|] eqn:S1; [|discriminate].
    destruct (sequence (map (pair_text o2) keys2)) as [ts2|] eqn:S2; [|discriminate].
    cbn [bind] in E1, E2. rewrite <- E1 in E2. injection E2 as Ep Et.
    change (k2 ++ String "=" t2 = k1 ++ String "=" t1) in Ep.
    destruct (append_sep_inj _ _ _ _ _ (F2 k2 (or_introl eq_refl))
                (F1 k1 (or_introl eq_refl)) Ep) as [-> ->].
    subst ts2.
    destruct (IH keys2 ts1) as [-> Hv]; auto.
    + intros k I. apply F1. now right.
    + intros k I. apply F2. now right.
    + split; [reflexivity|]. intros k [<- | I]; [congruence | now apply Hv].
Qed.

Lemma pair_texts_clean (o : obj) (keys : list string) (texts : list string) :
  (forall k, In k keys ->
     contains "&" k = false /\
     forall text, ToString (prop o k) = Some text -> contains "&" text = false) ->
  sequence (map (pair_text o) keys) = Some texts ->
  forall x, In x texts -> contains "&" x = false /\ x <> "".
Proof.
  revert texts. induction keys as [|k keys IH]; intros texts F E x I; simpl in E.
  - injection E as <-. destruct I.
  - unfold pair_text at 1 in E.
    destruct (ToString (prop o k)) as [t|] eqn:T; [|discriminate]. cbn [bind] in E.
    destruct (sequence (map (pair_text o) keys)) as [ts|] eqn:S; [|discriminate].
    cbn [bind] in E. injection E as <-. destruct I as [<- | I].
    + destruct (F k (or_introl eq_refl)) as [Fk Ft]. split.
      * rewrite contains_append, Fk. simpl. now apply Ft.
      * destruct k; discriminate.
    + apply (IH ts); auto. intros k' I'. apply F. now right.
Qed.

(** X15.  Without delimiters in keys and printed values the canonical
    string determines the parameter set: two delimiter-free parameter sets
    without a key named [hasOwnProperty] that have one canonical string
    have the same keys, and under each key values that print alike.  (A
    function stored under [hasOwnProperty] can make the guard reject every
    key, see [rejecting_guard_sample].) *)
Theorem canonical_string_injective (o1 o2 : obj) (s : string) :
  get_own o1 "hasOwnProperty" = None -> get_own o2 "hasOwnProperty" = None ->
  delimiter_free o1 -> delimiter_free o2 ->
  stringifyToOKCoinFormat o1 = Some s -> stringifyToOKCoinFormat o2 = Some s ->
  Permutation (own_keys o1) (own_keys o2) /\
  forall k, In k (own_keys o1) -> ToString (prop o1 k) = ToString (prop o2 k).
Proof.
  intros U1 U2 D1 D2 E1 E2.
  rewrite stringify_joined_pairs in E1 by exact U1.
  rewrite stringify_joined_pairs in E2 by exact U2.
  unfold joined_pairs in E1, E2.
  destruct (sequence (map (pair_text o1) (sort (own_keys o1)))) as [ts1|] eqn:S1;
    [|discriminate].
  destruct (sequence (map (pair_text o2) (sort (own_keys o2)))) as [ts2|] eqn:S2;
    [|discriminate].
  simpl in E1, E2. rewrite <- E1 in E2. injection E2 as E.
  assert (In1 : forall k, In k (sort (own_keys o1)) -> In k (own_keys o1))
    by (intros k; apply Permutation_in, Permutation_sym, sort_permutation).
  assert (In2 : forall k, In k (sort (own_keys o2)) -> In k (own_keys o2))
    by (intros k; apply Permutation_in, Permutation_sym, sort_permutation).
  assert (ts2 = ts1) as ->.
  { apply concat_amp_inj; [| |exact E].
    - apply (pair_texts_clean o2 _ _ (fun k I => conj (proj1 (D2 k (In2 k I)))
                                            (proj2 (proj2 (D2 k (In2 k I))))) S2).
    - apply (pair_texts_clean o1 _ _ (fun k I => conj (proj1 (D1 k (In1 k I)))
                                            (proj2 (proj2 (D1 k (In1 k I))))) S1). }
  destruct (pair_texts_inj o1 o2 _ _ ts1
              (fun k I => proj1 (proj2 (D1 k (In1 k I))))
              (fun k I => proj1 (proj2 (D2 k (In2 k I)))) S1 S2) as [Ek Ev].
  split.
  - eapply Permutation_trans; [apply sort_permutation|].
    rewrite Ek. apply Permutation_sym, sort_permutation.
  - intros k I. apply Ev. eapply Permutation_in; [apply sort_permutation | exact I].
Qed.

Lemma canonical_string_injective_witness :
  ToString (prop [("symbol", JStr "btc_cny"); ("order_id", JNum 7)] "order_id")
  = ToString (prop [("order_id", JStr "7"); ("symbol", JStr "btc_cny")] "order_id").
Proof.
  refine (proj2 (canonical_string_injective
                   [("symbol", JStr "btc_cny"); ("order_id", JNum 7)]
                   [("order_id", JStr "7"); ("symbol", JStr "btc_cny")]
                   "order_id=7&symbol=btc_cny" eq_refl eq_refl _ _ eq_refl eq_refl)
            "order_id" _).
  - intros k [<- | [<- | []]]; (split; [reflexivity|]); (split; [reflexivity|]);
      intros text [= <-]; reflexivity.
  - intros k [<- | [<- | []]]; (split; [reflexivity|]); (split; [reflexivity|]);
      intros text [= <-]; reflexivity.
  - simpl. tauto.
Defined.

(** X16.  Values are not escaped, so with a delimiter inside a value the
    canonical string does not determine the parameter set: for two keys
    other than [hasOwnProperty], a single parameter whose text continues
    with [&], the second key, [=] and a second text is signed exactly like
    the two parameters, for every secret. *)
Theorem canonical_string_collision (md5 : string -> string) (config : obj)
  (k1 k2 t1 t2 : string) :
  k1 <> "hasOwnProperty" -> k2 <> "hasOwnProperty" ->
  key_le k1 k2 -> k1 <> k2 ->
  stringifyToOKCoinFormat [(k1, JStr (t1 ++ "&" ++ k2 ++ "=" ++ t2))]
    = Some (k1 ++ "=" ++ t1 ++ "&" ++ k2 ++ "=" ++ t2) /\
  stringifyToOKCoinFormat [(k1, JStr t1); (k2, JStr t2)]
    = Some (k1 ++ "=" ++ t1 ++ "&" ++ k2 ++ "=" ++ t2) /\
  getMessageSignature md5 config [(k1, JStr (t1 ++ "&" ++ k2 ++ "=" ++ t2))]
    = getMessageSignature md5 config [(k1, JStr t1); (k2, JStr t2)].
Proof.
  intros H1 H2 L D.
  assert (U1 : forall v : value, get_own [(k1, v)] "hasOwnProperty" = None).
  { intros v. simpl. now destruct (String.eqb_spec k1 "hasOwnProperty"). }
  assert (U2 : forall v w : value, get_own [(k1, v); (k2, w)] "hasOwnProperty" = None).
  { intros v w. simpl. destruct (String.eqb_spec k1 "hasOwnProperty"); [contradiction|].
    now destruct (String.eqb_spec k2 "hasOwnProperty"). }
  assert (E1 : stringifyToOKCoinFormat [(k1, JStr (t1 ++ "&" ++ k2 ++ "=" ++ t2))]
               = Some (k1 ++ "=" ++ t1 ++ "&" ++ k2 ++ "=" ++ t2)).
  { rewrite stringify_joined_pairs by apply U1.
    unfold joined_pairs, pair_text, prop. simpl.
    rewrite String.eqb_refl. reflexivity. }
  assert (S : sort [k1; k2] = [k1; k2]).
  { apply sorted_unique.
    - apply sort_sorted.
    - repeat constructor. exact L.
    - apply Permutation_sym, sort_permutation. }
  assert (E2 : stringifyToOKCoinFormat [(k1, JStr t1); (k2, JStr t2)]
               = Some (k1 ++ "=" ++ t1 ++ "&" ++ k2 ++ "=" ++ t2)).
  { rewrite stringify_joined_pairs by apply U2.
    unfold joined_pairs, own_keys. cbn [map fst].
    rewrite S. unfold pair_text, prop. cbn [map get_own].
    rewrite String.eqb_refl.
    destruct (String.eqb_spec k1 k2) as [E | _]; [contradiction|].
    rewrite String.eqb_refl. simpl. now rewrite !append_assoc. }
  split; [exact E1|]. split; [exact E2|].
  unfold getMessageSignature. now rewrite E1, E2.
Qed.

Lemma canonical_string_collision_witness :
  getMessageSignature sample_digest sample_config
    [("order_id", JStr "7&symbol=ltc_cny")]
  = getMessageSignature sample_digest sample_config
      [("order_id", JStr "7"); ("symbol", JStr "ltc_cny")].
Proof.
  apply (canonical_string_collision sample_digest sample_config
           "order_id" "symbol" "7" "ltc_cny").
  - discriminate.
  - discriminate.
  - reflexivity.
  - discriminate.
Defined.

Lemma upper_ascii_hex (c : ascii) : lower_hex c = true -> upper_hex (upper_ascii c) = true.
Proof.
  destruct c as [[] [] [] [] [] [] [] []]; vm_compute; intros H;
    first [reflexivity | discriminate H].
Qed.

Lemma upper_ascii_idempotent (c : ascii) : upper_ascii (upper_ascii c) = upper_ascii c.
Proof. destruct c as [[] [] [] [] [] [] [] []]; reflexivity. Qed.

Lemma toUpperCase_length (s : string) : String.length (toUpperCase s) = String.length s.
Proof. induction s as [|c s IH]; simpl; [reflexivity | now rewrite IH]. Qed.

(** X17.  With a digest function that returns [n] hexadecimal digits in
    lower case, as MD5 returns 32, every signature is [n] hexadecimal
    digits in upper case, and converting it to upper case again changes
    nothing. *)
Theorem signature_is_upper_hex (md5 : string -> string) (n : nat)
  (config params : obj) (sign : string) :
  (forall text, every lower_hex (md5 text) = true) ->
  (forall text, String.length (md5 text) = n) ->
  getMessageSignature md5 config params = Some sign ->
  every upper_hex sign = true /\ String.length sign = n /\ toUpperCase sign = sign.
Proof.
  intros Hhex Hlen. unfold getMessageSignature.
  destruct (stringifyToOKCoinFormat params) as [canonical|]; [|discriminate].
  cbn [bind]. destruct (ToString (prop config "secret")) as [secret|]; [|discriminate].
  cbn [bind]. intros [= <-].
  specialize (Hhex ((canonical ++ "&secret_key=") ++ secret)).
  specialize (Hlen ((canonical ++ "&secret_key=") ++ secret)).
  rewrite toUpperCase_length, Hlen. split; [|split; [reflexivity|]].
  - clear Hlen. revert Hhex.
    induction (md5 ((canonical ++ "&secret_key=") ++ secret)) as [|c d IH];
      [reflexivity|]. simpl. intros Hhex.
    apply andb_prop in Hhex as [Hc Hd]. now rewrite (upper_ascii_hex c Hc), IH.
  - clear Hhex Hlen.
    induction (md5 ((canonical ++ "&secret_key=") ++ secret)) as [|c d IH];
      [reflexivity|]. simpl. now rewrite upper_ascii_idempotent, IH.
Qed.

Lemma signature_is_upper_hex_witness :
  getMessageSignature sample_hex_digest sample_config [("api_key", JStr "key")]
    = Some "D41D8CD98F00B204E9800998ECF8427E" /\
  every upper_hex "D41D8CD98F00B204E9800998ECF8427E" = true.
Proof.
  split; [reflexivity|].
  exact (proj1 (signature_is_upper_hex sample_hex_digest 32 sample_config
                  [("api_key", JStr "key")] "D41D8CD98F00B204E9800998ECF8427E"
                  (fun _ => eq_refl) (fun _ => eq_refl) eq_refl)).
Defined.

(** ** Lengths *)

Lemma length_append (a b : string) :
  String.length (a ++ b) = (String.length a + String.length b)%nat.
Proof. induction a as [|x a IH]; simpl; [reflexivity | now rewrite IH]. Qed.

Lemma concat_length (x : string) (l : list string) :
  String.length (String.concat "&" (x :: l))
  = (total_length (x :: l) + List.length l)%nat.
Proof.
  assert (E : String.length (flat (map (String.append "&") l))
              = (total_length l + List.length l)%nat).
  { induction l as [|y l IH]; [reflexivity|].
    change (flat (map (String.append "&") (y :: l)))
      with (String "&" (y ++ flat (map (String.append "&") l))).
    cbn [String.length total_length fold_right List.length].
    fold (total_length l). rewrite length_append, IH. lia. }
  rewrite concat_flat, length_append, E.
  cbn [total_length fold_right]. fold (total_length l). lia.
Qed.

Lemma total_length_permutation (l1 l2 : list string) :
  Permutation l1 l2 -> total_length l1 = total_length l2.
Proof. induction 1; simpl; lia. Qed.

Lemma sequence_permutation {A : Type} (f : string -> option A) (keys1 keys2 : list string)
  (l1 : list A) :
  Permutation keys1 keys2 -> sequence (map f keys1) = Some l1 ->
  exists l2, sequence (map f keys2) = Some l2 /\ Permutation l1 l2.
Proof.
  intros P. revert l1.
  induction P as [|k ks1 ks2 P IH|a b ks|ks1 ks2 ks3 P1 IH1 P2 IH2]; intros l1 E.
  - exists l1. auto.
  - simpl in E |- *. destruct (f k) as [x|]; [|discriminate]. cbn [bind] in E |- *.
    destruct (sequence (map f ks1)) as [xs|]; [|discriminate]. cbn [bind] in E.
    injection E as <-. destruct (IH xs eq_refl) as (ys & -> & Pxy).
    exists (x :: ys). split; [reflexivity | now constructor].
  - simpl in E |- *. destruct (f b) as [y|]; [|discriminate].
    destruct (f a) as [x|]; [|discriminate]. cbn [bind] in E |- *.
    destruct (sequence (map f ks)) as [xs|]; [|discriminate]. cbn [bind] in E |- *.
    injection E as <-. exists (x :: y :: xs). split; [reflexivity | constructor].
  - destruct (IH1 l1 E) as (l2 & E2 & P12). destruct (IH2 l2 E2) as (l3 & E3 & P23).
    exists l3. split; [exact E3 | eapply Permutation_trans; eassumption].
Qed.

Lemma get_own_app_old (o extra : obj) (k : string) :
  In k (own_keys o) -> get_own (o ++ extra)%list k = get_own o k.
Proof.
  induction o as [|[k' v'] o IH]; simpl; [intros []|].
  destruct (String.eqb_spec k' k) as [-> | D]; [reflexivity|].
  intros [E | I]; [contradiction | now apply IH].
Qed.

Lemma get_own_app_new (o : obj) (k : string) (v : value) :
  ~ In k (own_keys o) -> get_own (o ++ [(k, v)])%list k = Some v.
Proof.
  intros N. rewrite <- obj_set_fresh by exact N. apply get_own_set_same.
Qed.

(** Appending a key that is new adds one pair to the canonical string. *)
Lemma stringify_appended_length (o : obj) (k : string) (text canonical : string) :
  get_own o "hasOwnProperty" = None -> k <> "hasOwnProperty" ->
  o <> [] -> ~ In k (own_keys o) ->
  stringifyToOKCoinFormat o = Some canonical ->
  exists longer,
    stringifyToOKCoinFormat (o ++ [(k, JStr text)])%list = Some longer /\
    String.length longer
    = (String.length canonical + 1 + String.length (k ++ "=" ++ text))%nat.
Proof.
  intros U Dk Ne Nk E.
  rewrite stringify_joined_pairs in E by exact U.
  rewrite stringify_joined_pairs by (now rewrite get_own_app_other).
  unfold joined_pairs in E |- *.
  destruct (sequence (map (pair_text o) (sort (own_keys o)))) as [texts|] eqn:Sq;
    [|discriminate].
  simpl in E. injection E as <-.
  set (o' := (o ++ [(k, JStr text)])%list).
  assert (S' : sequence (map (pair_text o') (k :: sort (own_keys o)))
               = Some ((k ++ "=" ++ text) :: texts)).
  { simpl. unfold pair_text at 1, prop. unfold o'.
    rewrite (get_own_app_new o k (JStr text) Nk). cbn [ToString bind].
    replace (map (pair_text (o ++ [(k, JStr text)])%list) (sort (own_keys o)))
      with (map (pair_text o) (sort (own_keys o))); [now rewrite Sq|].
    apply map_ext_in. intros key I. symmetry. apply pair_text_ext.
    apply get_own_app_old.
    eapply Permutation_in; [apply Permutation_sym, sort_permutation | exact I]. }
  assert (P : Permutation (k :: sort (own_keys o)) (sort (own_keys o'))).
  { eapply Permutation_trans; [|apply sort_permutation].
    unfold o', own_keys. rewrite map_app. simpl.
    eapply Permutation_trans; [|apply Permutation_cons_append].
    constructor. apply Permutation_sym, sort_permutation. }
  destruct (sequence_permutation _ _ _ _ P S') as (texts' & -> & Pt).
  eexists. split; [reflexivity|].
  assert (Lt : List.length texts' = S (List.length texts))
    by (rewrite <- (Permutation_length Pt); reflexivity).
  assert (Tt : total_length texts'
               = (String.length (k ++ "=" ++ text) + total_length texts)%nat)
    by (rewrite <- (total_length_permutation _ _ Pt); reflexivity).
  destruct texts' as [|x' texts']; [discriminate|].
  destruct texts as [|x texts].
  - exfalso. destruct o as [|[k0 v0] o]; [now apply Ne|].
    assert (I : In k0 (sort (own_keys ((k0, v0) :: o))))
      by (eapply Permutation_in; [apply sort_permutation | now left]).
    destruct (sort (own_keys ((k0, v0) :: o))); [destruct I|].
    simpl in Sq. destruct (pair_text ((k0, v0) :: o) s); [|discriminate].
    cbn [bind] in Sq. destruct (sequence _); discriminate.
  - rewrite !concat_length. simpl List.length in *. lia.
Qed.

(** X18.  The canonical string of the parameters that are sent, [sign]
    included, is not the text that was signed: it is longer by the field
    [&sign=] and the signature. *)
Theorem sent_text_is_longer (md5 : string -> string)
  (JSON_parse : string -> option value) (JSON_stringify : value -> string)
  (config : obj) (call : private_call) (cb : callback) (req : pending) :
  invoke md5 JSON_parse JSON_stringify config call cb = Some req ->
  exists sent sign signed_text sent_text,
    form (options req) = JObj sent /\
    get_own sent "sign" = Some (JStr sign) /\
    stringifyToOKCoinFormat (obj_remove sent "sign") = Some signed_text /\
    stringifyToOKCoinFormat sent = Some sent_text /\
    String.length sent_text
    = (String.length signed_text + 6 + String.length sign)%nat.
Proof.
  intros H.
  apply invoke_inv in H as (params & b & v & canonical & secret & Ep & _ & _ & Ec & Es & ->).
  destruct (call_params_keys call params Ep) as (N & Nk & Ns).
  set (signed := (params ++ [("api_key", prop config "api_key")])%list) in *.
  set (sign := toUpperCase (md5 (canonical ++ "&secret_key=" ++ secret))).
  assert (F : ~ In "sign" (own_keys signed)).
  { unfold signed, own_keys. rewrite map_app, in_app_iff. simpl.
    intros [I | [E | []]]; [now apply Ns | discriminate]. }
  assert (Ne : signed <> []) by (unfold signed; now destruct params).
  assert (U : get_own signed "hasOwnProperty" = None).
  { unfold signed. rewrite get_own_app_other by discriminate.
    exact (call_params_unshadowed call params Ep). }
  destruct (stringify_appended_length signed "sign" sign canonical U
              ltac:(discriminate) Ne F Ec)
    as (longer & El & Len).
  assert (Es' : (params ++ [("api_key", prop config "api_key"); ("sign", JStr sign)])%list
                = (signed ++ [("sign", JStr sign)])%list)
    by (unfold signed; now rewrite <- app_assoc).
  exists (signed ++ [("sign", JStr sign)])%list, sign, canonical, longer.
  split; [simpl; now rewrite Es'|]. split; [now apply get_own_app_new|].
  split; [now rewrite obj_remove_last|]. split; [exact El|].
  rewrite Len, length_append. simpl. lia.
Qed.

Lemma sent_text_is_longer_witness :
  exists sent sent_text,
    sent_form (invoke sample_digest sample_parse sample_stringify sample_config
                 Userinfo UserFunction) = Some (JObj sent) /\
    stringifyToOKCoinFormat sent = Some sent_text /\
    stringifyToOKCoinFormat (obj_remove sent "sign") <> Some sent_text.
Proof.
  destruct (invoke sample_digest sample_parse sample_stringify sample_config
              Userinfo UserFunction) as [req|] eqn:E; [|vm_compute in E; discriminate].
  destruct (sent_text_is_longer sample_digest sample_parse sample_stringify sample_config
              Userinfo UserFunction req E)
    as (sent & sign & signed_text & sent_text & Ef & _ & Es & Et & Len).
  exists sent, sent_text. simpl. rewrite Ef.
  split; [reflexivity|]. split; [exact Et|].
  rewrite Es. intros [= ->]. lia.
Defined.

(** ** Examples *)

Example sort_sample :
  sort ["symbol"; "api_key"; "type"; "amount"] = ["amount"; "api_key"; "symbol"; "type"].
Proof. reflexivity. Qed.

Example decimal_sample : decimal 99999 = "99999" /\ decimal (-5) = "-5" /\ decimal 0 = "0".
Proof. repeat split. Qed.

Example ToString_sample :
  ToString (JArr [JNum 1; JNull; JStr "a"; JArr [JNum 2; JNum 3]]) = Some "1,,a,2,3".
Proof. reflexivity. Qed.

Example toUpperCase_sample : toUpperCase "e10adc39ab" = "E10ADC39AB".
Proof. reflexivity. Qed.

Example listed_code_sample :
  error_code_meaning (JNum 10007)
  = Some (JObj [("code", JNum 10007); ("error", JStr "Signatures do not match")]).
Proof. reflexivity. Qed.

Example rejecting_guard_sample :
  stringifyToOKCoinFormat [("hasOwnProperty", JNative "isPrototypeOf"); ("a", JNum 1)]
    = Some "" /\
  stringifyToOKCoinFormat [("hasOwnProperty", JNative "isPrototypeOf"); ("b", JNum 2)]
    = Some "".
Proof. split; reflexivity. Qed.

Example reassigned_guard_sample :
  stringifyToOKCoinFormat [("symbol", JStr "btc_cny");
                           ("hasOwnProperty", JNative "hasOwnProperty")]
    = Some "hasOwnProperty=function hasOwnProperty() { [native code] }&symbol=btc_cny".
Proof. reflexivity. Qed.

Example throwing_callback_sample :
  on_response_calling sample_parse sample_stringify (fun _ _ => true) UserFunction JNull
    body_result
  = {| calls := [(JNull, JObj [("result", JBool true)])]; raised := true |}.
Proof. reflexivity. Qed.

Example join_null_sample :
  array_join "," [JStr "1"; JNull; JStr "3"] = Some "1,,3".
Proof. reflexivity. Qed.
